(** * MonorepoDependenciesProvider (src/dependencyProvider.ts)

    A shallow embedding of the tree-data provider of the monorepo tools
    extension, and the properties of its queries: the top-level query,
    child expansion, the circular-dependency notice, active-file tracking,
    the status text and the resolution of the workspace-tool command. *)

From Stdlib Require Import List String Ascii Bool Arith Lia.
From Stdlib Require Import DecimalString.
Import ListNotations.
Local Open Scope string_scope.

(** ** JavaScript values used by the provider *)

(** [`${v}`] for a value that is a string or [undefined]. *)
Definition template (v : option string) : string :=
  match v with
  | Some s => s
  | None => "undefined"
  end.

(** [`${n}`] for a non-negative integer such as [Map.prototype.size]. *)
Definition templateNat (n : nat) : string :=
  NilEmpty.string_of_uint (Nat.to_uint n).

(** Truthiness of a [string | undefined]: [undefined] and the empty string
    are falsy, every other string is truthy. *)
Definition truthy (v : option string) : bool :=
  match v with
  | Some s => negb (s =? "")
  | None => false
  end.

(** [a || b] on [string | undefined]. *)
Definition js_or (a b : option string) : option string :=
  if truthy a then a else b.

(** [keys.includes(v)] on an array of strings, for [v : string | undefined]. *)
Definition includes (keys : list string) (v : option string) : bool :=
  match v with
  | Some n => existsb (String.eqb n) keys
  | None => false
  end.

(** ** [Map<string, V>]: a map that enumerates in insertion order *)

Module JsMap.

Definition t (V : Type) : Type := list (string * V).

Definition empty {V} : t V := [].

Fixpoint get {V} (m : t V) (k : string) : option V :=
  match m with
  | [] => None
  | (k', v) :: m' => if k' =? k then Some v else get m' k
  end.

(** [m.set(k, v)]: an existing key keeps its position and takes the new
    value, a new key goes last. *)
Fixpoint set {V} (k : string) (v : V) (m : t V) : t V :=
  match m with
  | [] => [(k, v)]
  | (k', v') :: m' => if k' =? k then (k', v) :: m' else (k', v') :: set k v m'
  end.

Definition size {V} (m : t V) : nat := List.length m.

Definition keys {V} (m : t V) : list string := map fst m.

(** [Array.from(m.values())] *)
Definition values {V} (m : t V) : list V := map snd m.

(** [m.entries().next().value]: the first entry, [undefined] when the
    iterator is exhausted at once. *)
Definition first {V} (m : t V) : option (string * V) :=
  match m with
  | [] => None
  | e :: _ => Some e
  end.

End JsMap.

(** ** Data model *)

(** [vscode.TreeItemCollapsibleState] *)
Module TreeItemCollapsibleState.
Inductive t : Set := None | Collapsed | Expanded.
End TreeItemCollapsibleState.

(** A parsed manifest ([PackageInfo], or the result of [readJson]); every
    field may be missing from the JSON. *)
Record PackageInfo : Set := mkPackageInfo {
  name : option string;
  version : option string;
  packageJsonPath : option string
}.

(** [{...manifest, tool, children}]: what a tree item wraps.  [children] is
    the out-edge name set, enumerated in insertion order; the root item has
    none. *)
Record WorkspaceInfo : Set := mkWorkspaceInfo {
  manifest : PackageInfo;
  tool : option string;
  children : option (list string)
}.

(** Modelled from the spec: the class [DependencyTreeItem] (./dependency) is
    not among the sources; a tree node holds the package data, the
    collapse-state hint and the root flag it is constructed with, and a
    description that the provider assigns afterwards. *)
Record DependencyTreeItem : Set := mkDependencyTreeItem {
  workspace : WorkspaceInfo;
  collapsibleState : TreeItemCollapsibleState.t;
  root : bool;
  description : option string
}.

(** [item.workspace.name] *)
Definition nameOf (i : DependencyTreeItem) : option string :=
  name (manifest (workspace i)).

(** [new DependencyTreeItem(workspace, state, root?)] *)
Definition newDependencyTreeItem (w : WorkspaceInfo)
  (st : TreeItemCollapsibleState.t) (isRoot : bool) : DependencyTreeItem :=
  mkDependencyTreeItem w st isRoot None.

Definition set_description (d : string) (i : DependencyTreeItem) : DependencyTreeItem :=
  mkDependencyTreeItem (workspace i) (collapsibleState i) (root i) (Some d).

Inductive JsError : Set :=
| TypeError (what : string)
| ReadError.

(** Result of [readJson]: it throws, or returns a value that is [undefined]
    ([None]) or a manifest object. *)
Inductive ReadResult : Set :=
| ReadThrows
| ReadReturns (v : option PackageInfo).

(** ** The collaborators of the provider

    [./workspaces], [./readJson], [pkg-up], node's [path] and the
    [monorepoTools.workspaceToolOverride] setting.  [getWorkspaces] stands
    for [Object.entries] of the object it returns. *)
Record Host : Type := mkHost {
  getWorkspaces : string -> list (string * PackageInfo);
  getDependencyTree : list (string * PackageInfo) -> JsMap.t (list string);
  getWorkspaceTool : string -> option string;
  getWorkspaceRoot : string -> option string;
  readJson : option string -> ReadResult;
  pkgUp : string -> option string;
  workspaceToolOverride : option string;
  dirname : string -> string;
  join : string -> string -> string
}.

(** ** The provider's state

    The fields of the class, the number of times [_onDidChangeTreeData] has
    fired, and the messages shown by [window.showInformationMessage]
    (latest last). *)
Record Provider : Type := mkProvider {
  workspaceRoot : string;
  workspacePkgJson : option PackageInfo;
  workspaceTool : option string;
  rootPkg : option DependencyTreeItem;
  graph : JsMap.t (list string);
  items : JsMap.t DependencyTreeItem;
  activePackage : option DependencyTreeItem;
  fired : nat;
  notices : list string
}.

Definition set_workspaceRoot (r : string) (p : Provider) : Provider :=
  mkProvider r (workspacePkgJson p) (workspaceTool p) (rootPkg p) (graph p)
    (items p) (activePackage p) (fired p) (notices p).

Definition set_workspacePkgJson (j : option PackageInfo) (p : Provider) : Provider :=
  mkProvider (workspaceRoot p) j (workspaceTool p) (rootPkg p) (graph p)
    (items p) (activePackage p) (fired p) (notices p).

Definition set_workspaceTool (t : option string) (p : Provider) : Provider :=
  mkProvider (workspaceRoot p) (workspacePkgJson p) t (rootPkg p) (graph p)
    (items p) (activePackage p) (fired p) (notices p).

Definition set_rootPkg (r : option DependencyTreeItem) (p : Provider) : Provider :=
  mkProvider (workspaceRoot p) (workspacePkgJson p) (workspaceTool p) r (graph p)
    (items p) (activePackage p) (fired p) (notices p).

Definition set_graph (g : JsMap.t (list string)) (p : Provider) : Provider :=
  mkProvider (workspaceRoot p) (workspacePkgJson p) (workspaceTool p) (rootPkg p) g
    (items p) (activePackage p) (fired p) (notices p).

Definition set_items (m : JsMap.t DependencyTreeItem) (p : Provider) : Provider :=
  mkProvider (workspaceRoot p) (workspacePkgJson p) (workspaceTool p) (rootPkg p)
    (graph p) m (activePackage p) (fired p) (notices p).

Definition set_activePackage (a : option DependencyTreeItem) (p : Provider) : Provider :=
  mkProvider (workspaceRoot p) (workspacePkgJson p) (workspaceTool p) (rootPkg p)
    (graph p) (items p) a (fired p) (notices p).

Definition set_fired (n : nat) (p : Provider) : Provider :=
  mkProvider (workspaceRoot p) (workspacePkgJson p) (workspaceTool p) (rootPkg p)
    (graph p) (items p) (activePackage p) n (notices p).

Definition set_notices (l : list string) (p : Provider) : Provider :=
  mkProvider (workspaceRoot p) (workspacePkgJson p) (workspaceTool p) (rootPkg p)
    (graph p) (items p) (activePackage p) (fired p) l.

(** [new MonorepoDependenciesProvider(workspaceRoot, pkgJson)] *)
Definition constructor (wsRoot : string) (pkgJson : option PackageInfo) : Provider :=
  mkProvider wsRoot pkgJson None None JsMap.empty JsMap.empty None 0 [].

(** ** Methods run in a state-and-exception monad

    A method takes the provider's state and completes normally or throws;
    the state at the point of the throw is kept. *)
Inductive Completion (A : Type) : Type :=
| Return (a : A)
| Throw (e : JsError).
Arguments Return {A} a.
Arguments Throw {A} e.

Definition M (A : Type) : Type := Provider -> Completion A * Provider.

Definition ret {A} (a : A) : M A := fun p => (Return a, p).

Definition throw {A} (e : JsError) : M A := fun p => (Throw e, p).

Definition bind {A B} (m : M A) (k : A -> M B) : M B :=
  fun p =>
    match m p with
    | (Return a, p') => k a p'
    | (Throw e, p') => (Throw e, p')
    end.

Definition gets {A} (f : Provider -> A) : M A := fun p => (Return (f p), p).

Definition modify (f : Provider -> Provider) : M unit := fun p => (Return tt, f p).

Declare Scope js_scope.
Delimit Scope js_scope with js.
Notation "x <- m ;; k" := (bind m (fun x => k))
  (at level 61, m at next level, right associativity) : js_scope.
Notation "m ;; k" := (bind m (fun _ => k))
  (at level 61, right associativity) : js_scope.
Local Open Scope js_scope.

(** [for (const x of l) body(x)] *)
Fixpoint forOf {A} (l : list A) (body : A -> M unit) : M unit :=
  match l with
  | [] => ret tt
  | x :: l' => body x ;; forOf l' body
  end.

(** [l.map(f)] for a callback with effects: left to right, a throw ends it. *)
Fixpoint arrayMap {A B} (f : A -> M B) (l : list A) : M (list B) :=
  match l with
  | [] => ret []
  | x :: l' => y <- f x ;; ys <- arrayMap f l' ;; ret (y :: ys)
  end.

(** What node's [path.join] throws for an argument that is not a string. *)
Definition pathArgumentError : JsError :=
  TypeError "The path argument must be of type string".

(** A call of [readJson] and the propagation of what it throws. *)
Definition callReadJson (h : Host) (path : option string) : M (option PackageInfo) :=
  match readJson h path with
  | ReadThrows => throw ReadError
  | ReadReturns v => ret v
  end.

(** [window.showInformationMessage(msg)] *)
Definition showInformationMessage (msg : string) : M unit :=
  modify (fun p => set_notices (notices p ++ [msg]) p).

(** ** The methods of [MonorepoDependenciesProvider] *)

(** [refresh]: fire the tree-changed event. *)
Definition refresh : M unit :=
  modify (fun p => set_fired (S (fired p)) p).

Definition getTreeItem (element : DependencyTreeItem) : DependencyTreeItem := element.

(** What [loadDependencyTree] returns. *)
Record Loaded : Type := mkLoaded {
  loaded_workspaces : list (string * PackageInfo);
  loaded_tree : JsMap.t (list string);
  loaded_tool : option string;
  loaded_items : JsMap.t DependencyTreeItem
}.

(** [children.size ? Collapsed : None] *)
Definition collapseState (children : list string) : TreeItemCollapsibleState.t :=
  match List.length children with
  | 0 => TreeItemCollapsibleState.None
  | S _ => TreeItemCollapsibleState.Collapsed
  end.

(** The body of the loop of [loadDependencyTree]: the item built for one
    entry of the workspaces. *)
Definition itemFor (tree : JsMap.t (list string)) (tool : option string)
  (name : string) (workspace : PackageInfo) : DependencyTreeItem :=
  let children :=
    match JsMap.get tree name with
    | Some c => c
    | None => []
    end in
  let workspaceInfo := mkWorkspaceInfo workspace tool (Some children) in
  let state := collapseState children in
  newDependencyTreeItem workspaceInfo state false.

(** [loadDependencyTree(root)].  The local [items] and [this.items] are one
    and the same Map object from the assignment on, so every [items.set]
    of the loop is a write to [this.items]. *)
Definition loadDependencyTree (h : Host) (root : string) : M Loaded :=
  let workspaces := getWorkspaces h root in
  let tree := getDependencyTree h workspaces in
  let tool := js_or (workspaceToolOverride h) (getWorkspaceTool h root) in
  modify (set_items JsMap.empty) ;;
  forOf workspaces (fun '(name, workspace) =>
    modify (fun p => set_items (JsMap.set name (itemFor tree tool name workspace) (items p)) p)) ;;
  items <- gets items ;;
  ret (mkLoaded workspaces tree tool items).

(** [getRootItem(items)].  [path.join] throws when [getWorkspaceRoot] found
    no root. *)
Definition getRootItem (h : Host) (items : JsMap.t DependencyTreeItem) : M DependencyTreeItem :=
  this_workspaceRoot <- gets workspaceRoot ;;
  match getWorkspaceRoot h this_workspaceRoot with
  | None => throw pathArgumentError
  | Some workspaceRoot =>
      workspacePackage <- callReadJson h (Some (join h workspaceRoot "package.json")) ;;
      let tool := js_or (workspaceToolOverride h) (getWorkspaceTool h workspaceRoot) in
      modify (set_workspaceTool (js_or tool (Some "npm run"))) ;;
      let spread :=
        match workspacePackage with
        | Some j => j
        | None => mkPackageInfo None None None
        end in
      let rootDependency :=
        newDependencyTreeItem
          (mkWorkspaceInfo
             (mkPackageInfo (name spread) (version spread)
                (Some (join h workspaceRoot "package.json")))
             tool None)
          TreeItemCollapsibleState.Expanded true in
      (* This will show the number of packages in the workspace *)
      let rootDependency :=
        set_description (templateNat (JsMap.size items) ++ " packages") rootDependency in
      modify (set_rootPkg (Some rootDependency)) ;;
      ret rootDependency
  end.

(** The callback of [keys.map] in [getChildren]. *)
Definition resolveChild (items : JsMap.t DependencyTreeItem)
  (element : DependencyTreeItem) (keys : list string) (name : string)
  : M (option DependencyTreeItem) :=
  let dep := JsMap.get items name in
  (if includes keys (nameOf element)
   then
     match dep with
     | Some d =>
         showInformationMessage
           ("Circular dependency: " ++ template (nameOf element)
              ++ " -> " ++ template (nameOf d))
     | None => throw (TypeError "Cannot read properties of undefined")
     end
   else ret tt) ;;
  ret dep.

(** [getChildren(element)]; [element] is [undefined] for the top level.  The
    array it resolves to holds [undefined] wherever [items.get] found
    nothing. *)
Definition getChildren (h : Host) (element : option DependencyTreeItem)
  : M (list (option DependencyTreeItem)) :=
  this_workspaceRoot <- gets workspaceRoot ;;
  loaded <- loadDependencyTree h this_workspaceRoot ;;
  let items := loaded_items loaded in
  match element with
  | None =>
      match JsMap.size items with
      | 0 => ret []
      | S _ =>
          (* Return the top level tree *)
          root <- getRootItem h items ;;
          ret [Some root]
      end
  | Some element =>
      if root element then ret (map Some (JsMap.values items))
      else
        match children (workspace element) with
        | Some (k :: ks) =>
            let keys := k :: ks in
            arrayMap (resolveChild items element keys) keys
        | _ => ret []
        end
  end.

(** [getFirst()]: destructuring [undefined] throws. *)
Definition getFirst (h : Host) : M DependencyTreeItem :=
  this_workspaceRoot <- gets workspaceRoot ;;
  loaded <- loadDependencyTree h this_workspaceRoot ;;
  match JsMap.first (loaded_items loaded) with
  | Some (_, pkg) => ret pkg
  | None => throw (TypeError "undefined is not iterable")
  end.

Definition refreshGraph : M unit := refresh.

(** [setActiveFile(filename)].  [pkgUp] resolves to [null] when no manifest
    is found above [cwd]; the value is passed on to [readJson] as it is. *)
Definition setActiveFile (h : Host) (filename : string) : M unit :=
  let cwd := dirname h filename in
  let packageForFilename := pkgUp h cwd in
  activePackage' <- callReadJson h packageForFilename ;;
  match getWorkspaceRoot h cwd with
  | None => throw pathArgumentError
  | Some workspaceRoot' =>
      workspacePackage <- callReadJson h (Some (join h workspaceRoot' "package.json")) ;;
      oldWorkspace <- gets workspaceRoot ;;
      modify (set_workspaceRoot workspaceRoot') ;;
      modify (set_workspacePkgJson workspacePackage) ;;
      match activePackage' with
      | None => throw (TypeError "Cannot read properties of undefined")
      | Some pkg =>
          this_items <- gets items ;;
          modify (set_activePackage
                    (match name pkg with
                     | Some n => JsMap.get this_items n
                     | None => None
                     end)) ;;
          let shouldNotRefreshTree := workspaceRoot' =? oldWorkspace in
          if shouldNotRefreshTree then ret tt else refresh
      end
  end.

(** [clearGraph()] *)
Definition clearGraph : M unit :=
  modify (set_graph JsMap.empty) ;;
  modify (set_items JsMap.empty).

(** [statusText()] *)
Definition statusText (p : Provider) : string :=
  match workspacePkgJson p with
  | Some j =>
      "Workspace: " ++ template (name j) ++ ", "
        ++ templateNat (JsMap.size (items p)) ++ " packages"
  | None => "Workspace: Loading..."
  end.

(** [titleText()] *)
Definition titleText (p : Provider) : string :=
  match workspacePkgJson p with
  | None => "Workspace: Loading..."
  | Some _ => "Dependency Graph"
  end.

(** The tool that [loadDependencyTree] attaches to every item. *)
Definition loadedTool (h : Host) (root : string) : option string :=
  js_or (workspaceToolOverride h) (getWorkspaceTool h root).

(** One step of the loop of [loadDependencyTree], on the Map alone. *)
Definition loadStep (h : Host) (root : string)
  (m : JsMap.t DependencyTreeItem) (e : string * PackageInfo) : JsMap.t DependencyTreeItem :=
  JsMap.set (fst e)
    (itemFor (getDependencyTree h (getWorkspaces h root)) (loadedTool h root) (fst e) (snd e)) m.

(** The index that a load of [root] leaves in [this.items]. *)
Definition materialize (h : Host) (root : string) : JsMap.t DependencyTreeItem :=
  fold_left (loadStep h root) (getWorkspaces h root) JsMap.empty.

(** The node of one entry, as a function of the entry. *)
Definition nodeOf (h : Host) (root : string) (e : string * PackageInfo) : DependencyTreeItem :=
  itemFor (getDependencyTree h (getWorkspaces h root)) (loadedTool h root) (fst e) (snd e).

(** The root item that [getRootItem] builds for the workspace root [r],
    whose manifest reads as [v], over an index of [n] packages. *)
Definition rootItemOf (h : Host) (r : string) (v : option PackageInfo) (n : nat)
  : DependencyTreeItem :=
  let spread := match v with
                | Some j => j
                | None => mkPackageInfo None None None
                end in
  mkDependencyTreeItem
    (mkWorkspaceInfo
       (mkPackageInfo (name spread) (version spread) (Some (join h r "package.json")))
       (js_or (workspaceToolOverride h) (getWorkspaceTool h r)) None)
    TreeItemCollapsibleState.Expanded true
    (Some (templateNat n ++ " packages")).

(** The state that [setActiveFile] leaves when it completes: [r] is the
    workspace root of the file, [wp] the manifest of that root, [pkg] the
    manifest nearest to the file. *)
Definition afterActiveFile (r : string) (wp : option PackageInfo) (pkg : PackageInfo)
  (p : Provider) : Provider :=
  let p1 :=
    set_activePackage
      (match name pkg with
       | Some n => JsMap.get (items p) n
       | None => None
       end)
      (set_workspacePkgJson wp (set_workspaceRoot r p)) in
  if r =? workspaceRoot p then p1 else set_fired (S (fired p)) p1.

(** ** Reading the claims

    A value of type [string | undefined] is present when [||] keeps it: it
    is a string and not the empty one. *)
Definition present (v : option string) : Prop := truthy v = true.
Definition absent (v : option string) : Prop := truthy v = false.

(** The fixed fallback command of [getRootItem]. *)
Definition fallbackTool : string := "npm run".

(** Child resolution as the specification words it: one node per out-edge
    name that the index holds, a name that is not found being left out. *)
Definition childrenOmittingMissing (index : JsMap.t DependencyTreeItem)
  (keys : list string) : list DependencyTreeItem :=
  flat_map (fun n => match JsMap.get index n with
                     | Some d => [d]
                     | None => []
                     end) keys.

(** ** Scenarios: concrete hosts on which the methods run *)

Module Scenario.

(** The part of a path before its last ["/"]. *)
Fixpoint hasSlash (s : string) : bool :=
  match s with
  | EmptyString => false
  | String c s' => if Ascii.eqb c "/" then true else hasSlash s'
  end.

Fixpoint parentDir (s : string) : string :=
  match s with
  | EmptyString => EmptyString
  | String c s' => if hasSlash s' then String c (parentDir s') else EmptyString
  end.

Definition joinSlash (a b : string) : string := a ++ "/" ++ b.

Definition pkg (n dir : string) : PackageInfo :=
  mkPackageInfo (Some n) (Some "1.0.0") (Some (joinSlash dir "package.json")).

(** Workspace [/repo]: app -> lib-a -> lib-b; workspace [/cycle]: A -> B
    and B -> A; workspace [/empty] has no packages. *)
Definition repoEntries : list (string * PackageInfo) :=
  [("app", pkg "app" "/repo/packages/app");
   ("lib-a", pkg "lib-a" "/repo/packages/lib-a");
   ("lib-b", pkg "lib-b" "/repo/packages/lib-b")].

Definition cycleEntries : list (string * PackageInfo) :=
  [("A", pkg "A" "/cycle/A"); ("B", pkg "B" "/cycle/B")].

Definition edges : JsMap.t (list string) :=
  [("app", ["lib-a"]); ("lib-a", ["lib-b"]); ("lib-b", []);
   ("A", ["B"]); ("B", ["A"])].

Definition manifests : JsMap.t PackageInfo :=
  [("/repo/package.json", pkg "repo" "/repo");
   ("/cycle/package.json", pkg "cycle" "/cycle");
   ("/empty/package.json", pkg "empty" "/empty");
   ("/repo/packages/app/package.json", pkg "app" "/repo/packages/app");
   ("/repo/packages/lib-a/package.json", pkg "lib-a" "/repo/packages/lib-a");
   ("/repo/packages/lib-b/package.json", pkg "lib-b" "/repo/packages/lib-b");
   ("/cycle/A/package.json", pkg "A" "/cycle/A");
   ("/cycle/B/package.json", pkg "B" "/cycle/B")].

Definition workspaceRootOf (dir : string) : option string :=
  if prefix "/repo" dir then Some "/repo"
  else if prefix "/cycle" dir then Some "/cycle"
  else if prefix "/empty" dir then Some "/empty"
  else None.

Definition nearestManifest (dir : string) : option string :=
  if prefix "/repo/packages/app" dir then Some "/repo/packages/app/package.json"
  else if prefix "/repo/packages/lib-a" dir then Some "/repo/packages/lib-a/package.json"
  else if prefix "/repo/packages/lib-b" dir then Some "/repo/packages/lib-b/package.json"
  else if prefix "/cycle/A" dir then Some "/cycle/A/package.json"
  else if prefix "/cycle/B" dir then Some "/cycle/B/package.json"
  else match workspaceRootOf dir with
       | Some r => Some (joinSlash r "package.json")
       | None => None
       end.

(** A host over these workspaces.  [onAbsent] is what [readJson] does
    with the [null] that [pkgUp] resolves to when it finds no manifest;
    [override] and [detected] are the configured and the detected tool. *)
Definition host (onAbsent : ReadResult) (override detected : option string) : Host :=
  mkHost
    (fun r => if r =? "/repo" then repoEntries
              else if r =? "/cycle" then cycleEntries
              else [])
    (fun ws => filter (fun e => existsb (String.eqb (fst e)) (map fst ws)) edges)
    (fun _ => detected)
    workspaceRootOf
    (fun path => match path with
                 | Some f => ReadReturns (JsMap.get manifests f)
                 | None => onAbsent
                 end)
    nearestManifest
    override
    parentDir
    joinSlash.

Definition plainHost : Host := host (ReadReturns None) None (Some "yarn").

Definition repoProvider : Provider :=
  constructor "/repo" (Some (pkg "repo" "/repo")).

Definition cycleProvider : Provider :=
  constructor "/cycle" (Some (pkg "cycle" "/cycle")).

Definition emptyProvider : Provider :=
  constructor "/empty" (Some (pkg "empty" "/empty")).

(** The package nodes of the two workspaces, as a load builds them. *)
Definition node (tool : option string) (n dir : string) (deps : list string)
  : DependencyTreeItem :=
  newDependencyTreeItem (mkWorkspaceInfo (pkg n dir) tool (Some deps))
    (collapseState deps) false.

Definition nodeApp : DependencyTreeItem := node (Some "yarn") "app" "/repo/packages/app" ["lib-a"].
Definition nodeLibA : DependencyTreeItem := node (Some "yarn") "lib-a" "/repo/packages/lib-a" ["lib-b"].
Definition nodeLibB : DependencyTreeItem := node (Some "yarn") "lib-b" "/repo/packages/lib-b" [].
Definition nodeA : DependencyTreeItem := node (Some "yarn") "A" "/cycle/A" ["B"].
Definition nodeB : DependencyTreeItem := node (Some "yarn") "B" "/cycle/B" ["A"].

(** A node kept from an earlier load, one of whose dependencies has left
    the workspace since. *)
Definition staleApp : DependencyTreeItem :=
  node (Some "yarn") "app" "/repo/packages/app" ["lib-a"; "left-pad"].

(** A package that lists itself among its dependencies. *)
Definition selfish : DependencyTreeItem :=
  node (Some "yarn") "app" "/repo/packages/app" ["app"; "lib-a"].

(** The root node of [/repo]. *)
Definition rootOfRepo : DependencyTreeItem :=
  mkDependencyTreeItem
    (mkWorkspaceInfo (pkg "repo" "/repo") (Some "yarn") None)
    TreeItemCollapsibleState.Expanded true (Some "3 packages").

End Scenario.

(** ** Further scenarios and notions for the properties of the methods *)

(** The text of the notice that the callback of [getChildren] shows for the
    expanded node and one of its dependencies. *)
Definition circularNotice (element d : DependencyTreeItem) : string :=
  "Circular dependency: " ++ template (nameOf element) ++ " -> " ++ template (nameOf d).

(** What a query leaves alone: the current root and its manifest, the
    active node, the graph and the count of fired events; the notices only
    grow. *)
Definition queryFrame (p p' : Provider) : Prop :=
  workspaceRoot p' = workspaceRoot p /\
  workspacePkgJson p' = workspacePkgJson p /\
  activePackage p' = activePackage p /\
  graph p' = graph p /\
  fired p' = fired p /\
  exists shown, notices p' = (notices p ++ shown)%list.

Module Edge.

(** The host of the scenarios, except that the manifest of package A of
    [/cycle] reads as [undefined]. *)
Definition unreadableHost : Host :=
  mkHost
    (getWorkspaces Scenario.plainHost)
    (getDependencyTree Scenario.plainHost)
    (getWorkspaceTool Scenario.plainHost)
    (getWorkspaceRoot Scenario.plainHost)
    (fun path =>
       match path with
       | Some f => if f =? "/cycle/A/package.json" then ReadReturns None
                   else readJson Scenario.plainHost path
       | None => readJson Scenario.plainHost path
       end)
    (pkgUp Scenario.plainHost)
    (workspaceToolOverride Scenario.plainHost)
    (dirname Scenario.plainHost)
    (join Scenario.plainHost).

(** A host whose workspace [/dup] enumerates the name [x] twice. *)
Definition dupHost : Host :=
  mkHost
    (fun r => if r =? "/dup"
              then [("x", Scenario.pkg "x" "/dup/one"); ("y", Scenario.pkg "y" "/dup/y");
                    ("x", Scenario.pkg "x" "/dup/two")]
              else [])
    (fun _ => [("x", ["y"])])
    (fun _ => None)
    (fun _ => Some "/dup")
    (fun _ => ReadReturns None)
    (fun _ => None)
    None
    Scenario.parentDir
    Scenario.joinSlash.

(** A host with no workspace root anywhere, though [/repo] has packages. *)
Definition rootlessHost : Host :=
  mkHost
    (getWorkspaces Scenario.plainHost)
    (getDependencyTree Scenario.plainHost)
    (getWorkspaceTool Scenario.plainHost)
    (fun _ => None)
    (readJson Scenario.plainHost)
    (pkgUp Scenario.plainHost)
    (workspaceToolOverride Scenario.plainHost)
    (dirname Scenario.plainHost)
    (join Scenario.plainHost).

(** A node that depends on itself and on a package that has left. *)
Definition selfishStale : DependencyTreeItem :=
  Scenario.node (Some "yarn") "app" "/repo/packages/app" ["lib-a"; "left-pad"; "app"].

End Edge.

(** ** Facts about [JsMap] *)

Module JsMapFacts.

Lemma set_fresh {V} (k : string) (v : V) (m : JsMap.t V) :
  ~ In k (JsMap.keys m) -> JsMap.set k v m = (m ++ [(k, v)])%list.
Proof.
  induction m as [|[k' v'] m IH]; simpl; intros Hk.
  - reflexivity.
  - destruct (String.eqb_spec k' k) as [->|Hne].
    + exfalso. apply Hk. now left.
    + rewrite IH; [reflexivity|]. intros Hin. apply Hk. now right.
Qed.

Lemma set_not_empty {V} (k : string) (v : V) (m : JsMap.t V) :
  JsMap.set k v m <> [].
Proof.
  destruct m as [|[k' v'] m]; simpl; [discriminate|].
  destruct (k' =? k); discriminate.
Qed.

Lemma set_in {V} (k : string) (v : V) (m : JsMap.t V) (k0 : string) (v0 : V) :
  In (k0, v0) (JsMap.set k v m) -> (k0 = k /\ v0 = v) \/ In (k0, v0) m.
Proof.
  induction m as [|[k' v'] m IH]; simpl.
  - intros [H|[]]. inversion H. now left.
  - destruct (String.eqb_spec k' k) as [->|Hne]; simpl.
    + intros [H|H]; [inversion H; now left | right; now right].
    + intros [H|H]; [right; now left|].
      destruct (IH H) as [?|?]; [now left | right; now right].
Qed.

End JsMapFacts.

(** ** What a load computes *)

Section Load.

Variable h : Host.
Variable root : string.

Lemma forOf_load (l : list (string * PackageInfo)) (p : Provider) :
  forOf l (fun '(name, workspace) =>
    modify (fun p =>
      set_items
        (JsMap.set name
           (itemFor (getDependencyTree h (getWorkspaces h root)) (loadedTool h root)
              name workspace)
           (items p)) p)) p
  = (Return tt, set_items (fold_left (loadStep h root) l (items p)) p).
Proof.
  revert p. induction l as [|[n w] l IH]; intros p; simpl.
  - destruct p; reflexivity.
  - unfold bind at 1. unfold modify at 1. rewrite IH. simpl. reflexivity.
Qed.

Lemma loadDependencyTree_run (p : Provider) :
  loadDependencyTree h root p
  = (Return (mkLoaded (getWorkspaces h root)
               (getDependencyTree h (getWorkspaces h root))
               (loadedTool h root) (materialize h root)),
     set_items (materialize h root) p).
Proof.
  unfold loadDependencyTree. fold (loadedTool h root).
  unfold bind at 1. unfold modify at 1.
  unfold bind at 1. rewrite forOf_load. simpl. reflexivity.
Qed.

Lemma fold_loadStep_fresh (l : list (string * PackageInfo)) (acc : JsMap.t DependencyTreeItem) :
  NoDup (JsMap.keys acc ++ map fst l)%list ->
  fold_left (loadStep h root) l acc
  = (acc ++ map (fun e => (fst e, nodeOf h root e)) l)%list.
Proof.
  revert acc. induction l as [|[n w] l IH]; intros acc Hnd; simpl.
  - now rewrite app_nil_r.
  - unfold loadStep at 2. simpl.
    rewrite JsMapFacts.set_fresh.
    + rewrite IH.
      * rewrite <- app_assoc. reflexivity.
      * unfold JsMap.keys in *. rewrite map_app. simpl.
        rewrite <- app_assoc. exact Hnd.
    + simpl in Hnd. apply NoDup_remove_2 in Hnd.
      intros Hin. apply Hnd. apply in_or_app. now left.
Qed.

(** With distinct keys, as the entries of an object have, the index lists
    one node per entry, in the order of the entries. *)
Lemma materialize_entries :
  NoDup (map fst (getWorkspaces h root)) ->
  materialize h root = map (fun e => (fst e, nodeOf h root e)) (getWorkspaces h root).
Proof.
  intros Hnd. unfold materialize. rewrite fold_loadStep_fresh; [reflexivity|].
  exact Hnd.
Qed.

Lemma fold_loadStep_in (l : list (string * PackageInfo)) (acc : JsMap.t DependencyTreeItem)
  (k : string) (v : DependencyTreeItem) :
  In (k, v) (fold_left (loadStep h root) l acc) ->
  In (k, v) acc \/ exists e, In e l /\ v = nodeOf h root e.
Proof.
  revert acc. induction l as [|e l IH]; intros acc Hin; simpl in *.
  - now left.
  - destruct (IH _ Hin) as [Hacc|[e' [He' Hv]]].
    + apply JsMapFacts.set_in in Hacc. destruct Hacc as [[_ Hv]|Hacc].
      * right. exists e. split; [now left | exact Hv].
      * now left.
    + right. exists e'. split; [now right | exact Hv].
Qed.

Lemma fold_loadStep_not_empty (l : list (string * PackageInfo)) (acc : JsMap.t DependencyTreeItem) :
  acc <> [] -> fold_left (loadStep h root) l acc <> [].
Proof.
  revert acc. induction l as [|e l IH]; intros acc Hacc; simpl.
  - exact Hacc.
  - apply IH. apply JsMapFacts.set_not_empty.
Qed.

Lemma materialize_empty :
  getWorkspaces h root = [] -> materialize h root = [].
Proof. unfold materialize. intros ->. reflexivity. Qed.

Lemma materialize_not_empty :
  getWorkspaces h root <> [] -> materialize h root <> [].
Proof.
  unfold materialize. destruct (getWorkspaces h root) as [|e l]; [congruence|].
  intros _. simpl. apply fold_loadStep_not_empty. discriminate.
Qed.

End Load.

(** ** Child expansion *)

Section Expansion.

Variable h : Host.

(** Every query starts with a load of the current root; what follows
    runs on the index that the load left in [this.items]. *)
Lemma getChildren_run (element : option DependencyTreeItem) (p : Provider) :
  getChildren h element p =
  let index := materialize h (workspaceRoot p) in
  let p1 := set_items index p in
  match element with
  | None =>
      match JsMap.size index with
      | 0 => (Return [], p1)
      | S _ => (root <- getRootItem h index ;; ret [Some root]) p1
      end
  | Some element =>
      if root element then (Return (map Some (JsMap.values index)), p1)
      else
        match children (workspace element) with
        | Some (k :: ks) => arrayMap (resolveChild index element (k :: ks)) (k :: ks) p1
        | _ => (Return [], p1)
        end
  end.
Proof.
  unfold getChildren. unfold bind at 1. unfold gets at 1.
  unfold bind at 1. rewrite loadDependencyTree_run. cbn [loaded_items].
  destruct element as [element|].
  - destruct (root element); [reflexivity|].
    destruct (children (workspace element)) as [[|k ks]|]; reflexivity.
  - destruct (JsMap.size (materialize h (workspaceRoot p))); reflexivity.
Qed.

(** Without the node's own name among its keys, the callback of the map
    is a plain lookup: no notice, no throw. *)
Lemma arrayMap_resolveChild_quiet (index : JsMap.t DependencyTreeItem)
  (element : DependencyTreeItem) (keys l : list string) (p : Provider) :
  includes keys (nameOf element) = false ->
  arrayMap (resolveChild index element keys) l p
  = (Return (map (JsMap.get index) l), p).
Proof.
  intros Hinc. induction l as [|n l IH]; simpl.
  - reflexivity.
  - unfold bind at 1. unfold resolveChild at 1. rewrite Hinc.
    unfold bind at 1. unfold ret at 1. unfold ret at 1.
    unfold bind at 1. rewrite IH. reflexivity.
Qed.

(** The callback of the map never writes to [this.items]. *)
Lemma arrayMap_resolveChild_items (index : JsMap.t DependencyTreeItem)
  (element : DependencyTreeItem) (keys l : list string) (p : Provider) :
  items (snd (arrayMap (resolveChild index element keys) l p)) = items p.
Proof.
  revert p. induction l as [|n l IH]; intros p; simpl.
  - reflexivity.
  - unfold bind at 1. unfold resolveChild at 1.
    destruct (includes keys (nameOf element)).
    + destruct (JsMap.get index n) as [d|]; cbn.
      * unfold bind at 1.
        specialize (IH (set_notices
          (notices p ++ ["Circular dependency: " ++ template (nameOf element)
                           ++ " -> " ++ template (nameOf d)]) p)).
        destruct (arrayMap _ l _) as [[ys|e] p']; exact IH.
      * reflexivity.
    + cbn. unfold bind at 1. specialize (IH p).
      destruct (arrayMap _ l _) as [[ys|e] p']; exact IH.
Qed.

Lemma getRootItem_items (index : JsMap.t DependencyTreeItem) (p : Provider) :
  items (snd (getRootItem h index p)) = items p.
Proof.
  unfold getRootItem. unfold bind at 1. unfold gets at 1.
  destruct (getWorkspaceRoot h (workspaceRoot p)) as [r|]; [|reflexivity].
  unfold bind at 1. unfold callReadJson.
  destruct (readJson h _) as [|v]; reflexivity.
Qed.

(** Whatever the element and however the query ends, it leaves the index
    of a fresh load of the current root in [this.items]. *)
Lemma getChildren_reloads (element : option DependencyTreeItem) (p : Provider) :
  items (snd (getChildren h element p)) = materialize h (workspaceRoot p).
Proof.
  rewrite getChildren_run. cbv zeta.
  destruct element as [element|].
  - destruct (root element); [reflexivity|].
    destruct (children (workspace element)) as [[|k ks]|]; try reflexivity.
    rewrite arrayMap_resolveChild_items. reflexivity.
  - destruct (JsMap.size _); [reflexivity|].
    unfold bind at 1.
    pose proof (getRootItem_items (materialize h (workspaceRoot p))
                  (set_items (materialize h (workspaceRoot p)) p)) as H.
    destruct (getRootItem h _ _) as [[r|e] p']; exact H.
Qed.

End Expansion.

(** C2: on the root node, [getChildren] returns one node per package of the
    load it has just made, in the order in which the workspace enumerates
    its packages, and as many nodes as the count that [statusText] then
    reports. *)
Theorem root_children_one_per_package (h : Host) (p : Provider)
  (element : DependencyTreeItem) (j : PackageInfo) :
  root element = true ->
  NoDup (map fst (getWorkspaces h (workspaceRoot p))) ->
  workspacePkgJson p = Some j ->
  exists nodes p',
    getChildren h (Some element) p = (Return (map Some nodes), p') /\
    nodes = map (nodeOf h (workspaceRoot p)) (getWorkspaces h (workspaceRoot p)) /\
    map (fun i => manifest (workspace i)) nodes
      = map snd (getWorkspaces h (workspaceRoot p)) /\
    List.length nodes = List.length (getWorkspaces h (workspaceRoot p)) /\
    statusText p'
      = "Workspace: " ++ template (name j) ++ ", "
          ++ templateNat (List.length nodes) ++ " packages".
Proof.
  intros Hroot Hnd Hj.
  exists (map (nodeOf h (workspaceRoot p)) (getWorkspaces h (workspaceRoot p))).
  exists (set_items (materialize h (workspaceRoot p)) p).
  rewrite getChildren_run. cbv zeta. rewrite Hroot.
  rewrite (materialize_entries _ _ Hnd).
  split; [|split; [reflexivity|split; [|split]]].
  - unfold JsMap.values. rewrite !map_map. reflexivity.
  - rewrite map_map. unfold nodeOf, itemFor. cbn. reflexivity.
  - now rewrite length_map.
  - unfold statusText. cbn [workspacePkgJson set_items items]. rewrite Hj.
    unfold JsMap.size. now rewrite !length_map.
Qed.

Lemma root_children_one_per_package_witness :
  exists nodes p',
    getChildren Scenario.plainHost (Some Scenario.rootOfRepo) Scenario.repoProvider
      = (Return (map Some nodes), p') /\
    nodes = [Scenario.nodeApp; Scenario.nodeLibA; Scenario.nodeLibB] /\
    statusText p' = "Workspace: repo, 3 packages".
Proof.
  destruct (root_children_one_per_package Scenario.plainHost Scenario.repoProvider
              Scenario.rootOfRepo (Scenario.pkg "repo" "/repo"))
    as (nodes & p' & Hrun & Hnodes & _ & _ & Hstatus).
  - reflexivity.
  - repeat constructor; simpl; intuition discriminate.
  - reflexivity.
  - exists nodes, p'. split; [exact Hrun|]. split.
    + rewrite Hnodes. reflexivity.
    + rewrite Hstatus, Hnodes. reflexivity.
Defined.

(** C7: a node that is not the root and whose out-edge set is empty has no
    children: the query returns the empty sequence and shows no notice. *)
Theorem leaf_children_empty (h : Host) (p : Provider) (element : DependencyTreeItem) :
  root element = false ->
  children (workspace element) = Some [] ->
  exists p',
    getChildren h (Some element) p = (Return [], p') /\
    notices p' = notices p.
Proof.
  intros Hroot Hleaf. rewrite getChildren_run. cbv zeta.
  rewrite Hroot, Hleaf. eexists. split; reflexivity.
Qed.

Lemma leaf_children_empty_witness :
  exists p',
    getChildren Scenario.plainHost (Some Scenario.nodeLibB) Scenario.repoProvider
      = (Return [], p') /\
    notices p' = [].
Proof.
  apply (leaf_children_empty Scenario.plainHost Scenario.repoProvider Scenario.nodeLibB);
    reflexivity.
Defined.

(** C4, as the claim has it, fails: a name of the out-edge set that the
    index does not hold is not left out.  The stale node of app, with
    out-edges lib-a and left-pad, expands to two entries, the second one
    [undefined], where the claimed result is the single node of lib-a. *)
Lemma missing_child_not_omitted :
  let index := materialize Scenario.plainHost "/repo" in
  JsMap.get index "left-pad" = None /\
  childrenOmittingMissing index ["lib-a"; "left-pad"] = [Scenario.nodeLibA] /\
  fst (getChildren Scenario.plainHost (Some Scenario.staleApp) Scenario.repoProvider)
    = Return [Some Scenario.nodeLibA; None] /\
  fst (getChildren Scenario.plainHost (Some Scenario.staleApp) Scenario.repoProvider)
    <> Return (map Some (childrenOmittingMissing index ["lib-a"; "left-pad"])).
Proof.
  cbv zeta. split; [reflexivity|]. split; [reflexivity|]. split; [reflexivity|].
  discriminate.
Qed.

(** C4, amended: for a node that is not the root, has out-edges and is not
    among them itself, the query returns one entry per out-edge name, in
    the order of the names: the node that the index holds for the name, or
    [undefined] when it holds none.  It does not throw and shows no
    notice. *)
Theorem children_one_entry_per_edge (h : Host) (p : Provider)
  (element : DependencyTreeItem) (keys : list string) :
  root element = false ->
  children (workspace element) = Some keys ->
  includes keys (nameOf element) = false ->
  exists p',
    getChildren h (Some element) p
      = (Return (map (JsMap.get (materialize h (workspaceRoot p))) keys), p') /\
    notices p' = notices p.
Proof.
  intros Hroot Hkeys Hself. rewrite getChildren_run. cbv zeta.
  rewrite Hroot, Hkeys. destruct keys as [|k ks].
  - eexists. split; reflexivity.
  - rewrite (arrayMap_resolveChild_quiet _ _ _ _ _ Hself).
    eexists. split; reflexivity.
Qed.

Lemma children_one_entry_per_edge_witness :
  exists p',
    getChildren Scenario.plainHost (Some Scenario.staleApp) Scenario.repoProvider
      = (Return [Some Scenario.nodeLibA; None], p') /\
    notices p' = [].
Proof.
  apply (children_one_entry_per_edge Scenario.plainHost Scenario.repoProvider
           Scenario.staleApp ["lib-a"; "left-pad"]); reflexivity.
Defined.

(** With the node's own name among its out-edges, the first name that the
    index does not hold makes the query throw. *)
Lemma missing_child_of_self_dependent_throws (h : Host) (p : Provider)
  (element : DependencyTreeItem) (k : string) (ks : list string) :
  root element = false ->
  children (workspace element) = Some (k :: ks) ->
  includes (k :: ks) (nameOf element) = true ->
  JsMap.get (materialize h (workspaceRoot p)) k = None ->
  fst (getChildren h (Some element) p)
    = Throw (TypeError "Cannot read properties of undefined").
Proof.
  intros Hroot Hkeys Hself Hmiss. rewrite getChildren_run. cbv zeta.
  rewrite Hroot, Hkeys. cbn [arrayMap]. unfold bind at 1.
  unfold resolveChild at 1. rewrite Hself, Hmiss. reflexivity.
Qed.

(** C1, on the code: in the workspace where A depends on B and B on A,
    expanding A returns the node of B and expanding B returns the node of
    A, and neither expansion shows a notice.  The test of the callback is
    whether the expanded node's own name is among its out-edge names, and
    neither A nor B depends on itself. *)
Theorem mutual_cycle_shows_no_notice :
  getWorkspaces Scenario.plainHost "/cycle" = Scenario.cycleEntries /\
  JsMap.get (getDependencyTree Scenario.plainHost Scenario.cycleEntries) "A" = Some ["B"] /\
  JsMap.get (getDependencyTree Scenario.plainHost Scenario.cycleEntries) "B" = Some ["A"] /\
  (exists p',
     getChildren Scenario.plainHost (Some Scenario.nodeA) Scenario.cycleProvider
       = (Return [Some Scenario.nodeB], p') /\ notices p' = []) /\
  (exists p',
     getChildren Scenario.plainHost (Some Scenario.nodeB) Scenario.cycleProvider
       = (Return [Some Scenario.nodeA], p') /\ notices p' = []).
Proof.
  split; [reflexivity|]. split; [reflexivity|]. split; [reflexivity|].
  split; eexists; split; reflexivity.
Qed.

(** The notice is shown only for a node that is among its own out-edges,
    and then once for each of its out-edges. *)
Lemma self_dependent_notices :
  exists p',
    getChildren Scenario.plainHost (Some Scenario.selfish) Scenario.repoProvider
      = (Return [Some Scenario.nodeApp; Some Scenario.nodeLibA], p') /\
    notices p' = ["Circular dependency: app -> app";
                  "Circular dependency: app -> lib-a"].
Proof. eexists. split; [cbv; reflexivity | reflexivity]. Qed.

(** C8: a load always completes, and every node it builds carries a
    collapse state that its out-edge set alone decides: none for an empty
    set, collapsed for any other. *)
Theorem collapse_state_from_out_edges (h : Host) (root : string) (p : Provider) :
  exists ld p',
    loadDependencyTree h root p = (Return ld, p') /\
    forall n item, In (n, item) (loaded_items ld) ->
      exists c,
        children (workspace item) = Some c /\
        (c = [] -> collapsibleState item = TreeItemCollapsibleState.None) /\
        (c <> [] -> collapsibleState item = TreeItemCollapsibleState.Collapsed).
Proof.
  rewrite loadDependencyTree_run. do 2 eexists. split; [reflexivity|].
  cbn [loaded_items]. intros n item Hin.
  apply fold_loadStep_in in Hin. destruct Hin as [[]|[e [_ ->]]].
  unfold nodeOf, itemFor. cbn [workspace children collapsibleState newDependencyTreeItem].
  eexists. split; [reflexivity|].
  destruct (JsMap.get _ (fst e)) as [[|c cs]|]; split; intros Hc;
    solve [reflexivity | discriminate | congruence].
Qed.

Lemma collapse_state_from_out_edges_witness :
  exists ld p',
    loadDependencyTree Scenario.plainHost "/repo" Scenario.repoProvider = (Return ld, p') /\
    In ("app", Scenario.nodeApp) (loaded_items ld) /\
    In ("lib-b", Scenario.nodeLibB) (loaded_items ld) /\
    collapsibleState Scenario.nodeApp = TreeItemCollapsibleState.Collapsed /\
    collapsibleState Scenario.nodeLibB = TreeItemCollapsibleState.None.
Proof.
  destruct (collapse_state_from_out_edges Scenario.plainHost "/repo" Scenario.repoProvider)
    as (ld & p' & Hrun & Hall).
  exists ld, p'. split; [exact Hrun|].
  assert (Hld : loaded_items ld = materialize Scenario.plainHost "/repo").
  { rewrite loadDependencyTree_run in Hrun. inversion Hrun. reflexivity. }
  assert (HinA : In ("app", Scenario.nodeApp) (loaded_items ld)).
  { rewrite Hld. left. reflexivity. }
  assert (HinB : In ("lib-b", Scenario.nodeLibB) (loaded_items ld)).
  { rewrite Hld. right. right. left. reflexivity. }
  split; [exact HinA|]. split; [exact HinB|].
  destruct (Hall _ _ HinA) as (cA & HcA & _ & HA).
  destruct (Hall _ _ HinB) as (cB & HcB & HB & _).
  split.
  - apply HA. intros ->. discriminate HcA.
  - apply HB. inversion HcB. reflexivity.
Defined.

(** C10: [getFirst] returns the node of the first enumerated package when
    there is one, and throws on an empty package set: it never returns an
    absent value. *)
Theorem getFirst_needs_a_package (h : Host) (p : Provider) :
  (forall e rest,
     getWorkspaces h (workspaceRoot p) = e :: rest ->
     NoDup (map fst (e :: rest)) ->
     exists p', getFirst h p = (Return (nodeOf h (workspaceRoot p) e), p')) /\
  (getWorkspaces h (workspaceRoot p) = [] ->
   exists p', getFirst h p = (Throw (TypeError "undefined is not iterable"), p')).
Proof.
  split.
  - intros e rest Hws Hnd. unfold getFirst. unfold bind at 1. unfold gets at 1.
    unfold bind at 1. rewrite loadDependencyTree_run. cbn [loaded_items].
    rewrite materialize_entries by (rewrite Hws; exact Hnd).
    rewrite Hws. cbn. eexists. reflexivity.
  - intros Hws. unfold getFirst. unfold bind at 1. unfold gets at 1.
    unfold bind at 1. rewrite loadDependencyTree_run. cbn [loaded_items].
    rewrite (materialize_empty _ _ Hws). cbn. eexists. reflexivity.
Qed.

Lemma getFirst_needs_a_package_witness :
  (exists p', getFirst Scenario.plainHost Scenario.repoProvider
              = (Return Scenario.nodeApp, p')) /\
  (exists p', getFirst Scenario.plainHost Scenario.emptyProvider
              = (Throw (TypeError "undefined is not iterable"), p')).
Proof.
  split.
  - destruct (getFirst_needs_a_package Scenario.plainHost Scenario.repoProvider) as [H _].
    apply (H ("app", Scenario.pkg "app" "/repo/packages/app")
             [("lib-a", Scenario.pkg "lib-a" "/repo/packages/lib-a");
              ("lib-b", Scenario.pkg "lib-b" "/repo/packages/lib-b")]).
    + reflexivity.
    + repeat constructor; simpl; intuition discriminate.
  - destruct (getFirst_needs_a_package Scenario.plainHost Scenario.emptyProvider) as [_ H].
    apply H. reflexivity.
Defined.

(** ** The top level and the root item *)

Lemma getRootItem_run (h : Host) (index : JsMap.t DependencyTreeItem) (p : Provider)
  (r : string) (v : option PackageInfo) :
  getWorkspaceRoot h (workspaceRoot p) = Some r ->
  readJson h (Some (join h r "package.json")) = ReadReturns v ->
  getRootItem h index p
  = (Return (rootItemOf h r v (JsMap.size index)),
     set_rootPkg (Some (rootItemOf h r v (JsMap.size index)))
       (set_workspaceTool
          (js_or (js_or (workspaceToolOverride h) (getWorkspaceTool h r))
             (Some fallbackTool)) p)).
Proof.
  intros Hroot Hread. unfold getRootItem. unfold bind at 1. unfold gets at 1.
  rewrite Hroot. unfold bind at 1. unfold callReadJson. rewrite Hread.
  destruct v; reflexivity.
Qed.

(** C6: with no package discovered, the top-level query returns the empty
    sequence, without a root node and without throwing; with a package
    discovered, and the workspace root and its manifest found by the
    collaborators, it returns exactly one node, the root node. *)
Theorem top_level_root_or_empty (h : Host) (p : Provider) :
  (getWorkspaces h (workspaceRoot p) = [] ->
   exists p', getChildren h None p = (Return [], p')) /\
  (forall r v,
     getWorkspaces h (workspaceRoot p) <> [] ->
     getWorkspaceRoot h (workspaceRoot p) = Some r ->
     readJson h (Some (join h r "package.json")) = ReadReturns v ->
     exists rootNode p',
       getChildren h None p = (Return [Some rootNode], p') /\
       root rootNode = true /\
       rootPkg p' = Some rootNode).
Proof.
  split.
  - intros Hws. rewrite getChildren_run. cbv zeta.
    rewrite (materialize_empty _ _ Hws). cbn. eexists. reflexivity.
  - intros r v Hws Hroot Hread. rewrite getChildren_run. cbv zeta.
    pose proof (materialize_not_empty _ _ Hws) as Hne.
    destruct (materialize h (workspaceRoot p)) as [|e m] eqn:Hm; [congruence|].
    cbn [JsMap.size List.length]. unfold bind at 1.
    rewrite (getRootItem_run h _ _ r v) by assumption.
    do 2 eexists. split; [reflexivity|]. split; reflexivity.
Qed.

Lemma top_level_root_or_empty_witness :
  (exists p', getChildren Scenario.plainHost None Scenario.emptyProvider = (Return [], p')) /\
  (exists p', getChildren Scenario.plainHost None Scenario.repoProvider
              = (Return [Some Scenario.rootOfRepo], p')).
Proof.
  split.
  - destruct (top_level_root_or_empty Scenario.plainHost Scenario.emptyProvider) as [H _].
    apply H. reflexivity.
  - destruct (top_level_root_or_empty Scenario.plainHost Scenario.repoProvider) as [_ H].
    destruct (H "/repo" (Some (Scenario.pkg "repo" "/repo")))
      as (rootNode & p' & Hrun & _ & _).
    + discriminate.
    + reflexivity.
    + reflexivity.
    + exists p'. rewrite Hrun. f_equal.
      assert (Hfst : fst (getChildren Scenario.plainHost None Scenario.repoProvider)
                     = Return [Some Scenario.rootOfRepo]) by reflexivity.
      rewrite Hrun in Hfst. cbn in Hfst. inversion Hfst. reflexivity.
Defined.


(** C9: [getRootItem] sets the workspace-tool command to the configured
    override when one is present, else to the detected tool when one is
    present, else to the fixed fallback; the fallback is what it uses
    exactly when both are absent. *)
Theorem workspace_tool_priority (h : Host) (index : JsMap.t DependencyTreeItem)
  (p : Provider) (r : string) (v : option PackageInfo) :
  getWorkspaceRoot h (workspaceRoot p) = Some r ->
  readJson h (Some (join h r "package.json")) = ReadReturns v ->
  exists rootNode p',
    getRootItem h index p = (Return rootNode, p') /\
    (present (workspaceToolOverride h) ->
     workspaceTool p' = workspaceToolOverride h) /\
    (absent (workspaceToolOverride h) -> present (getWorkspaceTool h r) ->
     workspaceTool p' = getWorkspaceTool h r) /\
    (absent (workspaceToolOverride h) -> absent (getWorkspaceTool h r) ->
     workspaceTool p' = Some fallbackTool) /\
    (workspaceTool p' = Some fallbackTool /\
     workspaceTool p' <> workspaceToolOverride h /\
     workspaceTool p' <> getWorkspaceTool h r
     <-> absent (workspaceToolOverride h) /\ absent (getWorkspaceTool h r)).
Proof.
  intros Hroot Hread. rewrite (getRootItem_run h index p r v Hroot Hread).
  do 2 eexists. split; [reflexivity|].
  cbn [workspaceTool set_rootPkg set_workspaceTool].
  set (o := workspaceToolOverride h). set (d := getWorkspaceTool h r).
  assert (Hval : js_or (js_or o d) (Some fallbackTool)
                 = if truthy o then o else if truthy d then d else Some fallbackTool).
  { unfold js_or. destruct (truthy o) eqn:Ho; [now rewrite Ho | reflexivity]. }
  rewrite Hval. unfold present, absent.
  destruct (truthy o) eqn:Ho; [|destruct (truthy d) eqn:Hd].
  - split; [now intros|]. split; [discriminate|]. split; [discriminate|]. split.
    + intros (_ & Hne & _). now elim Hne.
    + intros [Hf _]. discriminate Hf.
  - split; [discriminate|]. split; [now intros|]. split; [discriminate|]. split.
    + intros (_ & _ & Hne). now elim Hne.
    + intros [_ Hf]. discriminate Hf.
  - split; [discriminate|]. split; [discriminate|]. split; [now intros|]. split.
    + intros _. split; reflexivity.
    + intros _. split; [reflexivity|].
      split; intros Heq; [rewrite <- Heq in Ho | rewrite <- Heq in Hd]; discriminate.
Qed.

Lemma workspace_tool_priority_witness :
  (exists rootNode p',
     getRootItem (Scenario.host (ReadReturns None) (Some "pnpm") (Some "yarn")) []
       Scenario.repoProvider = (Return rootNode, p') /\
     workspaceTool p' = Some "pnpm") /\
  (exists rootNode p',
     getRootItem (Scenario.host (ReadReturns None) None (Some "yarn")) []
       Scenario.repoProvider = (Return rootNode, p') /\
     workspaceTool p' = Some "yarn") /\
  (exists rootNode p',
     getRootItem (Scenario.host (ReadReturns None) None None) []
       Scenario.repoProvider = (Return rootNode, p') /\
     workspaceTool p' = Some "npm run").
Proof.
  split; [|split].
  - destruct (workspace_tool_priority
                (Scenario.host (ReadReturns None) (Some "pnpm") (Some "yarn")) []
                Scenario.repoProvider "/repo" (Some (Scenario.pkg "repo" "/repo")))
      as (rootNode & p' & Hrun & Ho & _); [reflexivity | reflexivity |].
    exists rootNode, p'. split; [exact Hrun|]. apply Ho. reflexivity.
  - destruct (workspace_tool_priority
                (Scenario.host (ReadReturns None) None (Some "yarn")) []
                Scenario.repoProvider "/repo" (Some (Scenario.pkg "repo" "/repo")))
      as (rootNode & p' & Hrun & _ & Hd & _); [reflexivity | reflexivity |].
    exists rootNode, p'. split; [exact Hrun|]. apply Hd; reflexivity.
  - destruct (workspace_tool_priority
                (Scenario.host (ReadReturns None) None None) []
                Scenario.repoProvider "/repo" (Some (Scenario.pkg "repo" "/repo")))
      as (rootNode & p' & Hrun & _ & _ & Hf & _); [reflexivity | reflexivity |].
    exists rootNode, p'. split; [exact Hrun|]. apply Hf; reflexivity.
Defined.

(** An empty string is a value that [||] does not keep: a configured
    override that is the empty string gives way to the detected tool. *)
Lemma empty_override_gives_way :
  exists rootNode p',
    getRootItem (Scenario.host (ReadReturns None) (Some "") (Some "yarn")) []
      Scenario.repoProvider = (Return rootNode, p') /\
    workspaceTool p' = Some "yarn".
Proof. do 2 eexists. split; [cbv; reflexivity | reflexivity]. Qed.

(** ** Tracking the active file *)

Lemma setActiveFile_run (h : Host) (filename : string) (p : Provider)
  (r : string) (pkg : PackageInfo) (wp : option PackageInfo) :
  getWorkspaceRoot h (dirname h filename) = Some r ->
  readJson h (pkgUp h (dirname h filename)) = ReadReturns (Some pkg) ->
  readJson h (Some (join h r "package.json")) = ReadReturns wp ->
  setActiveFile h filename p = (Return tt, afterActiveFile r wp pkg p).
Proof.
  intros Hroot Hpkg Hwp. unfold setActiveFile, afterActiveFile.
  unfold bind at 1. unfold callReadJson at 1. rewrite Hpkg. cbn [ret].
  rewrite Hroot. unfold bind at 1. unfold callReadJson. rewrite Hwp.
  cbn. destruct (r =? workspaceRoot p); reflexivity.
Qed.

(** C3: of two consecutive changes of the active file, the second fires no
    tree-changed event when its file belongs to the root that the first one
    left current, and fires exactly one when it belongs to another root.
    The event is what triggers the reload: the call itself leaves the index
    as it was, and every query that follows it loads the new root afresh. *)
Theorem active_file_refreshes_on_root_change
  (h1 h2 : Host) (file1 file2 : string) (p : Provider)
  (r1 r2 : string) (pkg1 pkg2 : PackageInfo) (wp1 wp2 : option PackageInfo) :
  getWorkspaceRoot h1 (dirname h1 file1) = Some r1 ->
  readJson h1 (pkgUp h1 (dirname h1 file1)) = ReadReturns (Some pkg1) ->
  readJson h1 (Some (join h1 r1 "package.json")) = ReadReturns wp1 ->
  getWorkspaceRoot h2 (dirname h2 file2) = Some r2 ->
  readJson h2 (pkgUp h2 (dirname h2 file2)) = ReadReturns (Some pkg2) ->
  readJson h2 (Some (join h2 r2 "package.json")) = ReadReturns wp2 ->
  exists p1 p2,
    setActiveFile h1 file1 p = (Return tt, p1) /\
    workspaceRoot p1 = r1 /\
    setActiveFile h2 file2 p1 = (Return tt, p2) /\
    workspaceRoot p2 = r2 /\
    items p2 = items p1 /\
    (r2 = r1 -> fired p2 = fired p1) /\
    (r2 <> r1 ->
     fired p2 = S (fired p1) /\
     forall h3 element,
       items (snd (getChildren h3 element p2)) = materialize h3 r2).
Proof.
  intros Hr1 Hpkg1 Hwp1 Hr2 Hpkg2 Hwp2.
  exists (afterActiveFile r1 wp1 pkg1 p).
  exists (afterActiveFile r2 wp2 pkg2 (afterActiveFile r1 wp1 pkg1 p)).
  assert (Hroot : forall r wp pkg q, workspaceRoot (afterActiveFile r wp pkg q) = r).
  { intros r wp pkg q. unfold afterActiveFile.
    destruct (r =? workspaceRoot q); reflexivity. }
  assert (Hitems : forall r wp pkg q, items (afterActiveFile r wp pkg q) = items q).
  { intros r wp pkg q. unfold afterActiveFile.
    destruct (r =? workspaceRoot q); reflexivity. }
  split; [now apply setActiveFile_run|].
  split; [apply Hroot|].
  split; [now apply setActiveFile_run|].
  split; [apply Hroot|].
  split; [apply Hitems|].
  split.
  - intros ->. unfold afterActiveFile at 1. rewrite Hroot, String.eqb_refl. reflexivity.
  - intros Hne. split.
    + unfold afterActiveFile at 1. rewrite Hroot.
      destruct (String.eqb_spec r2 r1) as [Heq|_]; [contradiction|]. reflexivity.
    + intros h3 element. rewrite getChildren_reloads, Hroot. reflexivity.
Qed.

Lemma active_file_refreshes_on_root_change_witness :
  (exists p1 p2,
     setActiveFile Scenario.plainHost "/repo/packages/app/src/index.ts"
       Scenario.repoProvider = (Return tt, p1) /\
     setActiveFile Scenario.plainHost "/repo/packages/lib-a/index.ts" p1 = (Return tt, p2) /\
     fired p2 = fired p1) /\
  (exists p1 p2,
     setActiveFile Scenario.plainHost "/repo/packages/app/src/index.ts"
       Scenario.repoProvider = (Return tt, p1) /\
     setActiveFile Scenario.plainHost "/cycle/A/index.ts" p1 = (Return tt, p2) /\
     fired p2 = S (fired p1) /\
     items (snd (getChildren Scenario.plainHost None p2))
       = materialize Scenario.plainHost "/cycle").
Proof.
  split.
  - destruct (active_file_refreshes_on_root_change Scenario.plainHost Scenario.plainHost
                "/repo/packages/app/src/index.ts" "/repo/packages/lib-a/index.ts"
                Scenario.repoProvider "/repo" "/repo"
                (Scenario.pkg "app" "/repo/packages/app")
                (Scenario.pkg "lib-a" "/repo/packages/lib-a")
                (Some (Scenario.pkg "repo" "/repo")) (Some (Scenario.pkg "repo" "/repo")))
      as (p1 & p2 & H1 & _ & H2 & _ & _ & Hsame & _); try reflexivity.
    exists p1, p2. split; [exact H1|]. split; [exact H2|]. apply Hsame. reflexivity.
  - destruct (active_file_refreshes_on_root_change Scenario.plainHost Scenario.plainHost
                "/repo/packages/app/src/index.ts" "/cycle/A/index.ts"
                Scenario.repoProvider "/repo" "/cycle"
                (Scenario.pkg "app" "/repo/packages/app")
                (Scenario.pkg "A" "/cycle/A")
                (Some (Scenario.pkg "repo" "/repo")) (Some (Scenario.pkg "cycle" "/cycle")))
      as (p1 & p2 & H1 & _ & H2 & _ & _ & _ & Hdiff); try reflexivity.
    exists p1, p2. split; [exact H1|]. split; [exact H2|].
    destruct Hdiff as [Hfired Hreload]; [discriminate|].
    split; [exact Hfired | apply Hreload].
Defined.

(** C5, as the claim has it, fails: a file with no manifest above it makes
    [setActiveFile] throw, whatever [readJson] does with the absent path. *)
Lemma no_manifest_file_throws :
  pkgUp Scenario.plainHost (dirname Scenario.plainHost "/tmp/scratch.ts") = None /\
  setActiveFile (Scenario.host ReadThrows None (Some "yarn")) "/tmp/scratch.ts"
    Scenario.repoProvider = (Throw ReadError, Scenario.repoProvider) /\
  setActiveFile (Scenario.host (ReadReturns None) None (Some "yarn")) "/tmp/scratch.ts"
    Scenario.repoProvider = (Throw pathArgumentError, Scenario.repoProvider) /\
  setActiveFile (Scenario.host (ReadReturns (Some (Scenario.pkg "x" "/x"))) None (Some "yarn"))
    "/tmp/scratch.ts" Scenario.repoProvider
    = (Throw pathArgumentError, Scenario.repoProvider) /\
  fst (setActiveFile Scenario.plainHost "/tmp/scratch.ts" Scenario.repoProvider)
    <> Return tt.
Proof.
  split; [reflexivity|]. split; [reflexivity|]. split; [reflexivity|].
  split; [reflexivity|]. discriminate.
Qed.

(** C5, amended: for a file with no manifest above it, when no workspace
    root is found for its directory or [readJson] yields no manifest for
    the absent path, [setActiveFile] throws.  It fires no tree-changed
    event and leaves the index and the active node as they were; the whole
    state is as it was when no workspace root is found or [readJson] itself
    throws on the absent path. *)
Theorem no_manifest_file_fails_without_refresh (h : Host) (filename : string)
  (p : Provider) :
  pkgUp h (dirname h filename) = None ->
  (getWorkspaceRoot h (dirname h filename) = None \/
   forall pkg, readJson h None <> ReadReturns (Some pkg)) ->
  exists e p',
    setActiveFile h filename p = (Throw e, p') /\
    fired p' = fired p /\
    items p' = items p /\
    activePackage p' = activePackage p /\
    (getWorkspaceRoot h (dirname h filename) = None \/ readJson h None = ReadThrows ->
     p' = p).
Proof.
  intros Hnone Hcase. unfold setActiveFile. rewrite Hnone.
  unfold bind at 1. unfold callReadJson at 1.
  destruct (readJson h None) as [|v] eqn:Hread.
  - exists ReadError, p. cbn. auto.
  - cbn [ret]. destruct (getWorkspaceRoot h (dirname h filename)) as [r|] eqn:Hroot.
    + destruct Hcase as [Hcase|Hcase]; [discriminate|].
      destruct v as [pkg|]; [now elim (Hcase pkg)|].
      unfold bind at 1. unfold callReadJson.
      destruct (readJson h (Some (join h r "package.json"))) as [|wp].
      * exists ReadError, p. cbn.
        repeat (split; [reflexivity|]). intros [Hf|Hf]; discriminate Hf.
      * eexists. eexists. cbn. split; [reflexivity|].
        repeat (split; [reflexivity|]). intros [Hf|Hf]; discriminate Hf.
    + exists pathArgumentError, p. cbn. auto.
Qed.

Lemma no_manifest_file_fails_without_refresh_witness :
  exists e p',
    setActiveFile Scenario.plainHost "/tmp/scratch.ts" Scenario.repoProvider
      = (Throw e, p') /\
    fired p' = 0 /\ p' = Scenario.repoProvider.
Proof.
  destruct (no_manifest_file_fails_without_refresh Scenario.plainHost "/tmp/scratch.ts"
              Scenario.repoProvider) as (e & p' & Hrun & Hfired & _ & _ & Hsame).
  - reflexivity.
  - left. reflexivity.
  - exists e, p'. split; [exact Hrun|]. split; [exact Hfired|].
    apply Hsame. left. reflexivity.
Defined.

(** ** More facts about [JsMap] and the index of a load *)

Module JsMapMore.

Lemma get_in {V} (m : JsMap.t V) (k : string) (v : V) :
  JsMap.get m k = Some v -> In (k, v) m.
Proof.
  induction m as [|[k' v'] m IH]; simpl; [discriminate|].
  destruct (String.eqb_spec k' k) as [->|Hne].
  - intros H. inversion H. now left.
  - intros H. right. now apply IH.
Qed.

Lemma get_key {V} (m : JsMap.t V) (k : string) :
  In k (JsMap.keys m) <-> exists v, JsMap.get m k = Some v.
Proof.
  induction m as [|[k' v'] m IH]; simpl.
  - split; [intros [] | intros [v Hv]; discriminate].
  - destruct (String.eqb_spec k' k) as [->|Hne].
    + split; [intros _; now exists v' | intros _; now left].
    + rewrite <- IH. split; [intros [H|H]; [contradiction | exact H] | intros H; now right].
Qed.

Lemma keys_set {V} (k : string) (v : V) (m : JsMap.t V) (k0 : string) :
  In k0 (JsMap.keys (JsMap.set k v m)) <-> k0 = k \/ In k0 (JsMap.keys m).
Proof.
  induction m as [|[k' v'] m IH]; simpl.
  - intuition.
  - destruct (String.eqb_spec k' k) as [->|Hne]; simpl.
    + intuition.
    + rewrite IH. intuition.
Qed.

Lemma set_keys_nodup {V} (k : string) (v : V) (m : JsMap.t V) :
  NoDup (JsMap.keys m) -> NoDup (JsMap.keys (JsMap.set k v m)).
Proof.
  induction m as [|[k' v'] m IH]; simpl; intros Hnd.
  - constructor; [intros [] | constructor].
  - destruct (String.eqb_spec k' k) as [->|Hne]; simpl.
    + exact Hnd.
    + inversion Hnd as [|? ? Hnotin Hnd']; subst. constructor.
      * intros Hin. apply keys_set in Hin. destruct Hin as [->|Hin]; [now elim Hne | contradiction].
      * now apply IH.
Qed.

Lemma size_set_le {V} (k : string) (v : V) (m : JsMap.t V) :
  JsMap.size (JsMap.set k v m) <= S (JsMap.size m).
Proof.
  unfold JsMap.size. induction m as [|[k' v'] m IH]; simpl; [lia|].
  destruct (k' =? k); simpl; lia.
Qed.

Lemma get_of_entries {A V} (f : string * A -> V) (l : list (string * A)) (e : string * A) :
  NoDup (map fst l) -> In e l ->
  JsMap.get (map (fun e => (fst e, f e)) l) (fst e) = Some (f e).
Proof.
  induction l as [|e' l IH]; simpl; intros Hnd Hin; [contradiction|].
  inversion Hnd as [|? ? Hnotin Hnd']; subst.
  destruct Hin as [->|Hin].
  - now rewrite String.eqb_refl.
  - destruct (String.eqb_spec (fst e') (fst e)) as [Heq|Hne].
    + exfalso. apply Hnotin. rewrite Heq. now apply in_map.
    + now apply IH.
Qed.

End JsMapMore.

Section LoadMore.

Variable h : Host.
Variable root : string.

Lemma fold_loadStep_in_key (l : list (string * PackageInfo)) (acc : JsMap.t DependencyTreeItem)
  (k : string) (v : DependencyTreeItem) :
  In (k, v) (fold_left (loadStep h root) l acc) ->
  In (k, v) acc \/ exists e, In e l /\ fst e = k /\ v = nodeOf h root e.
Proof.
  revert acc. induction l as [|e l IH]; intros acc Hin; simpl in *.
  - now left.
  - destruct (IH _ Hin) as [Hacc|[e' [He' Hv]]].
    + apply JsMapFacts.set_in in Hacc. destruct Hacc as [[Hk Hv]|Hacc].
      * right. exists e. split; [now left | split; [now symmetry | exact Hv]].
      * now left.
    + right. exists e'. split; [now right | exact Hv].
Qed.

Lemma fold_loadStep_keys (l : list (string * PackageInfo)) (acc : JsMap.t DependencyTreeItem)
  (k : string) :
  In k (JsMap.keys (fold_left (loadStep h root) l acc))
  <-> In k (JsMap.keys acc) \/ In k (map fst l).
Proof.
  revert acc. induction l as [|e l IH]; intros acc; simpl.
  - intuition.
  - rewrite IH. unfold loadStep. rewrite JsMapMore.keys_set. intuition.
Qed.

Lemma fold_loadStep_nodup (l : list (string * PackageInfo)) (acc : JsMap.t DependencyTreeItem) :
  NoDup (JsMap.keys acc) -> NoDup (JsMap.keys (fold_left (loadStep h root) l acc)).
Proof.
  revert acc. induction l as [|e l IH]; intros acc Hnd; simpl; [exact Hnd|].
  apply IH. now apply JsMapMore.set_keys_nodup.
Qed.

Lemma fold_loadStep_size (l : list (string * PackageInfo)) (acc : JsMap.t DependencyTreeItem) :
  JsMap.size (fold_left (loadStep h root) l acc) <= JsMap.size acc + List.length l.
Proof.
  revert acc. induction l as [|e l IH]; intros acc; simpl; [lia|].
  specialize (IH (loadStep h root acc e)).
  pose proof (JsMapMore.size_set_le (fst e) (nodeOf h root e) acc) as Hs.
  unfold loadStep, nodeOf in *. lia.
Qed.

End LoadMore.

(** X1: after a load, from whatever state, the index holds a node for a
    name exactly when the workspace enumerates that name, and the node is
    the one built for an enumerated entry of that name: nothing of the
    previous index survives. *)
Theorem load_index_holds_the_enumerated_names (h : Host) (root : string) (p : Provider) :
  exists ld p',
    loadDependencyTree h root p = (Return ld, p') /\
    items p' = loaded_items ld /\
    forall n,
      (In n (map fst (getWorkspaces h root)) <->
       exists item, JsMap.get (loaded_items ld) n = Some item) /\
      (forall item, JsMap.get (loaded_items ld) n = Some item ->
       exists w, In (n, w) (getWorkspaces h root) /\ item = nodeOf h root (n, w)).
Proof.
  rewrite loadDependencyTree_run. do 2 eexists. split; [reflexivity|].
  split; [reflexivity|]. cbn [loaded_items]. intros n. split.
  - rewrite <- JsMapMore.get_key. unfold materialize.
    rewrite fold_loadStep_keys. cbn. intuition.
  - intros item Hget. apply JsMapMore.get_in in Hget.
    apply fold_loadStep_in_key in Hget. destruct Hget as [[]|[[n' w] (Hin & Hk & Hv)]].
    cbn in Hk. subst n'. exists w. split; assumption.
Qed.

(** X2: the index of a load never holds a name twice, whatever the
    enumeration, and never more nodes than there are entries. *)
Theorem load_index_names_distinct (h : Host) (root : string) (p : Provider) :
  exists ld p',
    loadDependencyTree h root p = (Return ld, p') /\
    NoDup (JsMap.keys (loaded_items ld)) /\
    JsMap.size (loaded_items ld) <= List.length (getWorkspaces h root).
Proof.
  rewrite loadDependencyTree_run. do 2 eexists. split; [reflexivity|].
  cbn [loaded_items]. unfold materialize. split.
  - apply fold_loadStep_nodup. constructor.
  - pose proof (fold_loadStep_size h root (getWorkspaces h root) JsMap.empty) as H.
    cbn in H. exact H.
Qed.


(** ** How a query runs on the loaded index *)

Lemma set_notices_nil (p : Provider) : set_notices (notices p ++ []) p = p.
Proof. destruct p. cbn. now rewrite app_nil_r. Qed.

Section ExpansionMore.

Variable h : Host.
Variable index : JsMap.t DependencyTreeItem.
Variable element : DependencyTreeItem.
Variable keys : list string.

(** With the node's own name among its keys and every name found, the map
    shows one notice per name and returns the nodes. *)
Lemma arrayMap_resolveChild_noisy (l : list string) (deps : list DependencyTreeItem)
  (p : Provider) :
  includes keys (nameOf element) = true ->
  map (JsMap.get index) l = map Some deps ->
  arrayMap (resolveChild index element keys) l p
  = (Return (map Some deps),
     set_notices (notices p ++ map (circularNotice element) deps) p).
Proof.
  intros Hinc. revert deps p. induction l as [|n l IH]; intros deps p Hfound.
  - destruct deps; [|discriminate]. cbn. now rewrite set_notices_nil.
  - destruct deps as [|d deps]; [discriminate|]. cbn in Hfound.
    inversion Hfound as [[Hd Hrest]].
    cbn [arrayMap]. unfold bind at 1. unfold resolveChild at 1. rewrite Hinc, Hd.
    cbn. unfold bind at 1. rewrite (IH deps _ Hrest). cbn.
    rewrite <- app_assoc. reflexivity.
Qed.

(** With the node's own name among its keys, the first name that is not
    found ends the map with a throw, after the notices of the names before
    it. *)
Lemma arrayMap_resolveChild_throw (pre post : list string) (k : string)
  (deps : list DependencyTreeItem) (p : Provider) :
  includes keys (nameOf element) = true ->
  map (JsMap.get index) pre = map Some deps ->
  JsMap.get index k = None ->
  arrayMap (resolveChild index element keys) (pre ++ k :: post) p
  = (Throw (TypeError "Cannot read properties of undefined"),
     set_notices (notices p ++ map (circularNotice element) deps) p).
Proof.
  intros Hinc. revert deps p. induction pre as [|n pre IH]; intros deps p Hfound Hmiss.
  - destruct deps; [|discriminate]. cbn [app arrayMap]. unfold bind at 1.
    unfold resolveChild at 1. rewrite Hinc, Hmiss. cbn. now rewrite set_notices_nil.
  - destruct deps as [|d deps]; [discriminate|]. cbn in Hfound.
    inversion Hfound as [[Hd Hrest]].
    cbn [app arrayMap]. unfold bind at 1. unfold resolveChild at 1. rewrite Hinc, Hd.
    cbn. unfold bind at 1. rewrite (IH deps _ Hrest Hmiss). cbn.
    rewrite <- app_assoc. reflexivity.
Qed.

(** Whatever the map does, all it does to the state is to add notices. *)
Lemma arrayMap_resolveChild_state (l : list string) (p : Provider) :
  exists shown,
    snd (arrayMap (resolveChild index element keys) l p)
    = set_notices (notices p ++ shown) p.
Proof.
  revert p. induction l as [|n l IH]; intros p.
  - exists []. cbn. now rewrite set_notices_nil.
  - cbn [arrayMap]. unfold bind at 1. unfold resolveChild at 1.
    destruct (includes keys (nameOf element)).
    + destruct (JsMap.get index n) as [d|]; cbn.
      * unfold bind at 1.
        destruct (IH (set_notices (notices p ++ [circularNotice element d]) p))
          as [shown Hshown].
        exists (circularNotice element d :: shown).
        unfold circularNotice in *.
        destruct (arrayMap _ l _) as [[ys|e] p']; cbn in *; rewrite Hshown;
          rewrite <- app_assoc; reflexivity.
      * exists []. now rewrite set_notices_nil.
    + cbn. unfold bind at 1. destruct (IH p) as [shown Hshown]. exists shown.
      destruct (arrayMap _ l _) as [[ys|e] p']; exact Hshown.
Qed.

(** What the map returns or throws does not depend on the state. *)
Lemma arrayMap_resolveChild_fst (l : list string) (p q : Provider) :
  fst (arrayMap (resolveChild index element keys) l p)
  = fst (arrayMap (resolveChild index element keys) l q).
Proof.
  revert p q. induction l as [|n l IH]; intros p q; [reflexivity|].
  cbn [arrayMap]. unfold bind at 1 3. unfold resolveChild at 1 3.
  destruct (includes keys (nameOf element)).
  - destruct (JsMap.get index n) as [d|]; cbn; [|reflexivity].
    unfold bind at 1 2.
    specialize (IH (set_notices (notices p ++ [circularNotice element d]) p)
                   (set_notices (notices q ++ [circularNotice element d]) q)).
    unfold circularNotice in IH.
    destruct (arrayMap _ l (set_notices (notices p ++ _) p)) as [[ys|e] p'];
      destruct (arrayMap _ l (set_notices (notices q ++ _) q)) as [[zs|e'] q'];
      cbn in *; congruence.
  - cbn. unfold bind at 1 2. specialize (IH p q).
    destruct (arrayMap _ l p) as [[ys|e] p'];
      destruct (arrayMap _ l q) as [[zs|e'] q']; cbn in *; congruence.
Qed.

(** The three ways in which [getRootItem] ends. *)
Lemma getRootItem_cases (p : Provider) :
  getRootItem h index p =
  match getWorkspaceRoot h (workspaceRoot p) with
  | None => (Throw pathArgumentError, p)
  | Some r =>
      match readJson h (Some (join h r "package.json")) with
      | ReadThrows => (Throw ReadError, p)
      | ReadReturns v =>
          (Return (rootItemOf h r v (JsMap.size index)),
           set_rootPkg (Some (rootItemOf h r v (JsMap.size index)))
             (set_workspaceTool
                (js_or (js_or (workspaceToolOverride h) (getWorkspaceTool h r))
                   (Some fallbackTool)) p))
      end
  end.
Proof.
  destruct (getWorkspaceRoot h (workspaceRoot p)) as [r|] eqn:Hroot.
  - destruct (readJson h (Some (join h r "package.json"))) as [|v] eqn:Hread.
    + unfold getRootItem. unfold bind at 1. unfold gets at 1. rewrite Hroot.
      unfold bind at 1. unfold callReadJson. rewrite Hread. reflexivity.
    + now apply getRootItem_run.
  - unfold getRootItem. unfold bind at 1. unfold gets at 1. rewrite Hroot. reflexivity.
Qed.

End ExpansionMore.

Section QueryMore.

Variable h : Host.

(** The expansion of a node that is not the root and has out-edges is the
    map of the callback over its keys, on the freshly loaded index. *)
Lemma getChildren_expand (element : DependencyTreeItem) (keys : list string) (p : Provider) :
  root element = false ->
  children (workspace element) = Some keys ->
  keys <> [] ->
  getChildren h (Some element) p
  = arrayMap (resolveChild (materialize h (workspaceRoot p)) element keys) keys
      (set_items (materialize h (workspaceRoot p)) p).
Proof.
  intros Hroot Hkeys Hne. rewrite getChildren_run. cbv zeta. rewrite Hroot, Hkeys.
  destruct keys as [|k ks]; [congruence | reflexivity].
Qed.

Lemma includes_nil (v : option string) : includes [] v = false.
Proof. destruct v; reflexivity. Qed.

(** A query changes the index, the notices, and at the top level the tool
    and the root item; nothing else. *)
Lemma getChildren_frame (element : option DependencyTreeItem) (p : Provider) :
  queryFrame p (snd (getChildren h element p)).
Proof.
  assert (Hsame : forall q, workspaceRoot q = workspaceRoot p ->
            workspacePkgJson q = workspacePkgJson p ->
            activePackage q = activePackage p -> graph q = graph p ->
            fired q = fired p -> notices q = notices p -> queryFrame p q).
  { intros q H1 H2 H3 H4 H5 H6. repeat (split; [assumption|]).
    exists []. now rewrite app_nil_r. }
  rewrite getChildren_run. cbv zeta. destruct element as [element|].
  - destruct (root element); [now apply Hsame|].
    destruct (children (workspace element)) as [[|k ks]|]; try now apply Hsame.
    destruct (arrayMap_resolveChild_state (materialize h (workspaceRoot p)) element
                (k :: ks) (k :: ks) (set_items (materialize h (workspaceRoot p)) p))
      as [shown Hshown].
    rewrite Hshown. repeat (split; [reflexivity|]). exists shown. reflexivity.
  - destruct (JsMap.size (materialize h (workspaceRoot p))); [now apply Hsame|].
    unfold bind at 1. rewrite getRootItem_cases. cbn [workspaceRoot set_items].
    destruct (getWorkspaceRoot h (workspaceRoot p)) as [r|]; [|now apply Hsame].
    destruct (readJson h (Some (join h r "package.json"))); now apply Hsame.
Qed.

(** What a query returns or throws depends on the state through the
    current root alone. *)
Lemma getChildren_fst_root (element : option DependencyTreeItem) (p q : Provider) :
  workspaceRoot p = workspaceRoot q ->
  fst (getChildren h element p) = fst (getChildren h element q).
Proof.
  intros Hroot. rewrite !getChildren_run. cbv zeta. rewrite Hroot.
  destruct element as [element|].
  - destruct (root element); [reflexivity|].
    destruct (children (workspace element)) as [[|k ks]|]; try reflexivity.
    apply arrayMap_resolveChild_fst.
  - destruct (JsMap.size (materialize h (workspaceRoot q))); [reflexivity|].
    unfold bind at 1 2. rewrite !getRootItem_cases. cbn [workspaceRoot set_items].
    rewrite Hroot.
    destruct (getWorkspaceRoot h (workspaceRoot q)) as [r|]; [|reflexivity].
    destruct (readJson h (Some (join h r "package.json"))); reflexivity.
Qed.

End QueryMore.

(** X4: a query, whatever its element and however it ends, fires no
    tree-changed event and leaves the current root, its manifest, the
    active node and the graph as they were; it only adds notices, and it
    leaves in [this.items] the index of a fresh load of the current root. *)
Theorem query_leaves_tracker_alone (h : Host) (element : option DependencyTreeItem)
  (p : Provider) :
  queryFrame p (snd (getChildren h element p)) /\
  items (snd (getChildren h element p)) = materialize h (workspaceRoot p).
Proof.
  split; [apply getChildren_frame | apply getChildren_reloads].
Qed.

(** X5: expanding a node that lists itself among its out-edges, all of them
    held by the index, returns their nodes and shows one notice per
    out-edge, in the order of the out-edges, also for the edges that lead
    to other packages. *)
Theorem self_dependent_one_notice_per_edge (h : Host) (p : Provider)
  (element : DependencyTreeItem) (keys : list string) (deps : list DependencyTreeItem) :
  root element = false ->
  children (workspace element) = Some keys ->
  includes keys (nameOf element) = true ->
  map (JsMap.get (materialize h (workspaceRoot p))) keys = map Some deps ->
  exists p',
    getChildren h (Some element) p = (Return (map Some deps), p') /\
    notices p' = (notices p ++ map (circularNotice element) deps)%list /\
    List.length deps = List.length keys.
Proof.
  intros Hroot Hkeys Hself Hfound.
  assert (Hne : keys <> []).
  { intros ->. rewrite includes_nil in Hself. discriminate. }
  rewrite (getChildren_expand h element keys p Hroot Hkeys Hne).
  rewrite (arrayMap_resolveChild_noisy _ _ _ _ deps _ Hself Hfound).
  eexists. split; [reflexivity|]. split; [reflexivity|].
  apply (f_equal (@List.length _)) in Hfound. rewrite !length_map in Hfound. lia.
Qed.

Lemma self_dependent_one_notice_per_edge_witness :
  exists p',
    getChildren Scenario.plainHost (Some Scenario.selfish) Scenario.repoProvider
      = (Return [Some Scenario.nodeApp; Some Scenario.nodeLibA], p') /\
    notices p' = ["Circular dependency: app -> app"; "Circular dependency: app -> lib-a"].
Proof.
  destruct (self_dependent_one_notice_per_edge Scenario.plainHost Scenario.repoProvider
              Scenario.selfish ["app"; "lib-a"] [Scenario.nodeApp; Scenario.nodeLibA])
    as (p' & Hrun & Hnotices & _); try reflexivity.
  exists p'. split; [exact Hrun | exact Hnotices].
Defined.

(** X6: expanding a node that lists itself among its out-edges throws at
    the first out-edge name that the index does not hold, after the
    notices for the names before it; no children are returned. *)
Theorem self_dependent_missing_child_throws (h : Host) (p : Provider)
  (element : DependencyTreeItem) (pre post : list string) (k : string)
  (deps : list DependencyTreeItem) :
  root element = false ->
  children (workspace element) = Some (pre ++ k :: post)%list ->
  includes (pre ++ k :: post) (nameOf element) = true ->
  map (JsMap.get (materialize h (workspaceRoot p))) pre = map Some deps ->
  JsMap.get (materialize h (workspaceRoot p)) k = None ->
  exists p',
    getChildren h (Some element) p
      = (Throw (TypeError "Cannot read properties of undefined"), p') /\
    notices p' = (notices p ++ map (circularNotice element) deps)%list.
Proof.
  intros Hroot Hkeys Hself Hfound Hmiss.
  assert (Hne : (pre ++ k :: post)%list <> []).
  { destruct pre; discriminate. }
  rewrite (getChildren_expand h element _ p Hroot Hkeys Hne).
  rewrite (arrayMap_resolveChild_throw _ _ _ _ _ _ deps _ Hself Hfound Hmiss).
  eexists. split; reflexivity.
Qed.

Lemma self_dependent_missing_child_throws_witness :
  exists p',
    getChildren Scenario.plainHost (Some Edge.selfishStale) Scenario.repoProvider
      = (Throw (TypeError "Cannot read properties of undefined"), p') /\
    notices p' = ["Circular dependency: app -> lib-a"].
Proof.
  destruct (self_dependent_missing_child_throws Scenario.plainHost Scenario.repoProvider
              Edge.selfishStale ["lib-a"] ["app"] "left-pad" [Scenario.nodeLibA])
    as (p' & Hrun & Hnotices); try reflexivity.
  exists p'. split; [exact Hrun | exact Hnotices].
Defined.

Lemma load_index_holds_the_enumerated_names_witness :
  exists ld p',
    loadDependencyTree Edge.dupHost "/dup" Scenario.repoProvider = (Return ld, p') /\
    (exists item, JsMap.get (loaded_items ld) "x" = Some item) /\
    JsMap.get (loaded_items ld) "app" = None.
Proof.
  destruct (load_index_holds_the_enumerated_names Edge.dupHost "/dup" Scenario.repoProvider)
    as (ld & p' & Hrun & _ & Hall).
  exists ld, p'. split; [exact Hrun|]. split.
  - apply (proj1 (Hall "x")). left. reflexivity.
  - destruct (JsMap.get (loaded_items ld) "app") as [item|] eqn:Hget; [|reflexivity].
    exfalso. assert (Hin : In "app" (map fst (getWorkspaces Edge.dupHost "/dup"))).
    { apply (proj1 (Hall "app")). now exists item. }
    cbn in Hin. intuition discriminate.
Defined.


(** X7: the count in the description of the root node that the top-level
    query returns is the number of children that the root node then
    expands to. *)
Theorem root_description_counts_children (h : Host) (p : Provider)
  (r : string) (v : option PackageInfo) :
  getWorkspaces h (workspaceRoot p) <> [] ->
  getWorkspaceRoot h (workspaceRoot p) = Some r ->
  readJson h (Some (join h r "package.json")) = ReadReturns v ->
  exists rootNode p1 kids p2,
    getChildren h None p = (Return [Some rootNode], p1) /\
    getChildren h (Some rootNode) p1 = (Return kids, p2) /\
    description rootNode = Some (templateNat (List.length kids) ++ " packages").
Proof.
  intros Hws Hroot Hread.
  pose proof (materialize_not_empty _ _ Hws) as Hne.
  rewrite getChildren_run. cbv zeta.
  destruct (JsMap.size (materialize h (workspaceRoot p))) as [|n] eqn:Hsize.
  { destruct (materialize h (workspaceRoot p)); [congruence | discriminate Hsize]. }
  unfold bind at 1. rewrite (getRootItem_run h _ _ r v) by assumption.
  do 4 eexists. split; [reflexivity|].
  rewrite getChildren_run. cbv zeta. cbn [root rootItemOf workspaceRoot set_items
    set_rootPkg set_workspaceTool].
  split; [reflexivity|].
  cbn [description rootItemOf]. unfold JsMap.values. rewrite !length_map.
  reflexivity.
Qed.

Lemma root_description_counts_children_witness :
  exists rootNode p1 kids p2,
    getChildren Scenario.plainHost None Scenario.repoProvider = (Return [Some rootNode], p1) /\
    getChildren Scenario.plainHost (Some rootNode) p1 = (Return kids, p2) /\
    description rootNode = Some (templateNat (List.length kids) ++ " packages").
Proof.
  apply (root_description_counts_children Scenario.plainHost Scenario.repoProvider
           "/repo" (Some (Scenario.pkg "repo" "/repo"))).
  - discriminate.
  - reflexivity.
  - reflexivity.
Defined.

(** X8: with packages discovered, the top-level query throws when no
    workspace root is found for the current root, and when [readJson]
    throws on the root manifest; the index is loaded all the same, and the
    tool and the root item of the provider stay as they were. *)
Theorem top_level_fails_without_root_manifest (h : Host) (p : Provider) :
  getWorkspaces h (workspaceRoot p) <> [] ->
  (getWorkspaceRoot h (workspaceRoot p) = None ->
   getChildren h None p
   = (Throw pathArgumentError, set_items (materialize h (workspaceRoot p)) p)) /\
  (forall r,
     getWorkspaceRoot h (workspaceRoot p) = Some r ->
     readJson h (Some (join h r "package.json")) = ReadThrows ->
     getChildren h None p
     = (Throw ReadError, set_items (materialize h (workspaceRoot p)) p)).
Proof.
  intros Hws. pose proof (materialize_not_empty _ _ Hws) as Hne.
  assert (Hsize : exists n, JsMap.size (materialize h (workspaceRoot p)) = S n).
  { destruct (materialize h (workspaceRoot p)) as [|e m]; [congruence|].
    eexists. reflexivity. }
  destruct Hsize as [n Hsize]. split.
  - intros Hroot. rewrite getChildren_run. cbv zeta. rewrite Hsize.
    unfold bind at 1. rewrite getRootItem_cases. cbn [workspaceRoot set_items].
    rewrite Hroot. reflexivity.
  - intros r Hroot Hread. rewrite getChildren_run. cbv zeta. rewrite Hsize.
    unfold bind at 1. rewrite getRootItem_cases. cbn [workspaceRoot set_items].
    rewrite Hroot, Hread. reflexivity.
Qed.

Lemma top_level_fails_without_root_manifest_witness :
  fst (getChildren Edge.rootlessHost None Scenario.repoProvider) = Throw pathArgumentError /\
  JsMap.size (items (snd (getChildren Edge.rootlessHost None Scenario.repoProvider))) = 3.
Proof.
  destruct (top_level_fails_without_root_manifest Edge.rootlessHost Scenario.repoProvider)
    as [Hnone _]; [discriminate|].
  rewrite Hnone by reflexivity. split; reflexivity.
Defined.

(** X9: [getFirst] returns the first of the children that [getChildren]
    returns for the root node, and throws exactly when there are none;
    both leave the same state. *)
Theorem getFirst_is_first_root_child (h : Host) (p : Provider)
  (element : DependencyTreeItem) :
  root element = true ->
  exists kids p',
    getChildren h (Some element) p = (Return (map Some kids), p') /\
    getFirst h p
    = (match kids with
       | x :: _ => Return x
       | [] => Throw (TypeError "undefined is not iterable")
       end, p').
Proof.
  intros Hroot. rewrite getChildren_run. cbv zeta. rewrite Hroot.
  do 2 eexists. split; [reflexivity|].
  unfold getFirst. unfold bind at 1. unfold gets at 1.
  unfold bind at 1. rewrite loadDependencyTree_run. cbn [loaded_items].
  destruct (materialize h (workspaceRoot p)) as [|[n item] m]; reflexivity.
Qed.

Lemma getFirst_is_first_root_child_witness :
  exists kids p',
    getChildren Scenario.plainHost (Some Scenario.rootOfRepo) Scenario.repoProvider
      = (Return (map Some kids), p') /\
    getFirst Scenario.plainHost Scenario.repoProvider
    = (match kids with
       | x :: _ => Return x
       | [] => Throw (TypeError "undefined is not iterable")
       end, p').
Proof.
  apply (getFirst_is_first_root_child Scenario.plainHost Scenario.repoProvider
           Scenario.rootOfRepo). reflexivity.
Defined.

(** X10: what a query returns or throws depends on the provider's state
    through the current root alone: two providers with the same root get
    the same answer from the same host, and are left with the same index. *)
Theorem query_answer_depends_on_root_only (h : Host) (element : option DependencyTreeItem)
  (p q : Provider) :
  workspaceRoot p = workspaceRoot q ->
  fst (getChildren h element p) = fst (getChildren h element q) /\
  items (snd (getChildren h element p)) = items (snd (getChildren h element q)).
Proof.
  intros Hroot. split; [now apply getChildren_fst_root|].
  rewrite !getChildren_reloads. now rewrite Hroot.
Qed.

Lemma query_answer_depends_on_root_only_witness :
  fst (getChildren Scenario.plainHost None Scenario.repoProvider)
  = fst (getChildren Scenario.plainHost None
           (snd (getChildren Scenario.plainHost (Some Scenario.selfish) Scenario.repoProvider))).
Proof.
  apply (query_answer_depends_on_root_only Scenario.plainHost None Scenario.repoProvider
           (snd (getChildren Scenario.plainHost (Some Scenario.selfish) Scenario.repoProvider))).
  reflexivity.
Defined.

(** X11: [clearGraph] empties the index and the graph and touches nothing
    else; a query that follows it answers as if the index had not been
    cleared, and loads it again. *)
Theorem clearGraph_is_undone_by_next_query (h : Host) (element : option DependencyTreeItem)
  (p : Provider) :
  exists p0,
    clearGraph p = (Return tt, p0) /\
    items p0 = [] /\ graph p0 = [] /\
    p0 = set_items [] (set_graph [] p) /\
    fst (getChildren h element p0) = fst (getChildren h element p) /\
    items (snd (getChildren h element p0)) = materialize h (workspaceRoot p).
Proof.
  exists (set_items [] (set_graph [] p)).
  split; [reflexivity|]. split; [reflexivity|]. split; [reflexivity|].
  split; [reflexivity|]. split.
  - apply getChildren_fst_root. reflexivity.
  - rewrite getChildren_reloads. reflexivity.
Qed.

(** ** More on tracking the active file *)

Lemma afterActiveFile_root (r : string) (wp : option PackageInfo) (pkg : PackageInfo)
  (p : Provider) : workspaceRoot (afterActiveFile r wp pkg p) = r.
Proof. unfold afterActiveFile. destruct (r =? workspaceRoot p); reflexivity. Qed.

Lemma afterActiveFile_items (r : string) (wp : option PackageInfo) (pkg : PackageInfo)
  (p : Provider) : items (afterActiveFile r wp pkg p) = items p.
Proof. unfold afterActiveFile. destruct (r =? workspaceRoot p); reflexivity. Qed.

(** When the manifest nearest to the file reads as [undefined] while the
    workspace root and its manifest are found, the call throws after it
    has replaced the current root and its manifest. *)
Lemma setActiveFile_unreadable (h : Host) (filename : string) (p : Provider)
  (r : string) (wp : option PackageInfo) :
  getWorkspaceRoot h (dirname h filename) = Some r ->
  readJson h (pkgUp h (dirname h filename)) = ReadReturns None ->
  readJson h (Some (join h r "package.json")) = ReadReturns wp ->
  setActiveFile h filename p
  = (Throw (TypeError "Cannot read properties of undefined"),
     set_workspacePkgJson wp (set_workspaceRoot r p)).
Proof.
  intros Hroot Hpkg Hwp. unfold setActiveFile.
  unfold bind at 1. unfold callReadJson at 1. rewrite Hpkg. cbn [ret].
  rewrite Hroot. unfold bind at 1. unfold callReadJson. rewrite Hwp. reflexivity.
Qed.

(** X12: activating the same file twice in a row changes nothing the
    second time: the state after the second call is the state after the
    first, and no further event is fired. *)
Theorem setActiveFile_twice (h : Host) (filename : string) (p : Provider)
  (r : string) (pkg : PackageInfo) (wp : option PackageInfo) :
  getWorkspaceRoot h (dirname h filename) = Some r ->
  readJson h (pkgUp h (dirname h filename)) = ReadReturns (Some pkg) ->
  readJson h (Some (join h r "package.json")) = ReadReturns wp ->
  exists p1,
    setActiveFile h filename p = (Return tt, p1) /\
    setActiveFile h filename p1 = (Return tt, p1).
Proof.
  intros Hroot Hpkg Hwp. exists (afterActiveFile r wp pkg p).
  split; [now apply setActiveFile_run|].
  rewrite (setActiveFile_run h filename _ r pkg wp Hroot Hpkg Hwp). f_equal.
  unfold afterActiveFile at 1. rewrite afterActiveFile_root, String.eqb_refl.
  rewrite afterActiveFile_items.
  unfold afterActiveFile. destruct (r =? workspaceRoot p); destruct p; reflexivity.
Qed.

Lemma setActiveFile_twice_witness :
  exists p1,
    setActiveFile Scenario.plainHost "/cycle/A/index.ts" Scenario.repoProvider
      = (Return tt, p1) /\
    setActiveFile Scenario.plainHost "/cycle/A/index.ts" p1 = (Return tt, p1).
Proof.
  apply (setActiveFile_twice Scenario.plainHost "/cycle/A/index.ts" Scenario.repoProvider
           "/cycle" (Scenario.pkg "A" "/cycle/A") (Some (Scenario.pkg "cycle" "/cycle")));
    reflexivity.
Defined.

(** X13: a change of the active file to another root whose nearest
    manifest reads as [undefined] throws after it has replaced the current
    root, without firing the event; a later change to a readable file of
    that root then finds the root current and fires no event either, so the
    change of root is never announced. *)
Theorem failed_switch_swallows_the_refresh
  (h1 h2 : Host) (file1 file2 : string) (p : Provider)
  (r : string) (pkg2 : PackageInfo) (wp1 wp2 : option PackageInfo) :
  getWorkspaceRoot h1 (dirname h1 file1) = Some r ->
  readJson h1 (pkgUp h1 (dirname h1 file1)) = ReadReturns None ->
  readJson h1 (Some (join h1 r "package.json")) = ReadReturns wp1 ->
  getWorkspaceRoot h2 (dirname h2 file2) = Some r ->
  readJson h2 (pkgUp h2 (dirname h2 file2)) = ReadReturns (Some pkg2) ->
  readJson h2 (Some (join h2 r "package.json")) = ReadReturns wp2 ->
  exists e p1 p2,
    setActiveFile h1 file1 p = (Throw e, p1) /\
    workspaceRoot p1 = r /\
    fired p1 = fired p /\
    activePackage p1 = activePackage p /\
    setActiveFile h2 file2 p1 = (Return tt, p2) /\
    workspaceRoot p2 = r /\
    fired p2 = fired p.
Proof.
  intros Hr1 Hpkg1 Hwp1 Hr2 Hpkg2 Hwp2.
  rewrite (setActiveFile_unreadable h1 file1 p r wp1 Hr1 Hpkg1 Hwp1).
  do 3 eexists. split; [reflexivity|]. split; [reflexivity|].
  split; [reflexivity|]. split; [reflexivity|].
  rewrite (setActiveFile_run h2 file2 _ r pkg2 wp2 Hr2 Hpkg2 Hwp2).
  split; [reflexivity|]. split; [apply afterActiveFile_root|].
  unfold afterActiveFile. cbn [workspaceRoot set_workspacePkgJson set_workspaceRoot].
  rewrite String.eqb_refl. reflexivity.
Qed.

Lemma failed_switch_swallows_the_refresh_witness :
  exists e p1 p2,
    setActiveFile Edge.unreadableHost "/cycle/A/index.ts" Scenario.repoProvider
      = (Throw e, p1) /\
    workspaceRoot Scenario.repoProvider = "/repo" /\
    workspaceRoot p1 = "/cycle" /\
    setActiveFile Edge.unreadableHost "/cycle/B/index.ts" p1 = (Return tt, p2) /\
    fired p2 = 0.
Proof.
  destruct (failed_switch_swallows_the_refresh Edge.unreadableHost Edge.unreadableHost
              "/cycle/A/index.ts" "/cycle/B/index.ts" Scenario.repoProvider "/cycle"
              (Scenario.pkg "B" "/cycle/B")
              (Some (Scenario.pkg "cycle" "/cycle")) (Some (Scenario.pkg "cycle" "/cycle")))
    as (e & p1 & p2 & H1 & Hroot1 & _ & _ & H2 & _ & Hfired); try reflexivity.
  exists e, p1, p2. split; [exact H1|]. split; [reflexivity|]. split; [exact Hroot1|].
  split; [exact H2 | exact Hfired].
Defined.

(** X14: after a query has loaded the current root, activating a file of
    that root whose nearest manifest names an enumerated package sets the
    active node to the node of that package in the loaded index, and fires
    no event. *)
Theorem active_package_is_the_loaded_node (h : Host) (element : option DependencyTreeItem)
  (filename : string) (p : Provider) (pkg : PackageInfo) (wp : option PackageInfo)
  (n : string) (w : PackageInfo) :
  getWorkspaceRoot h (dirname h filename) = Some (workspaceRoot p) ->
  readJson h (pkgUp h (dirname h filename)) = ReadReturns (Some pkg) ->
  readJson h (Some (join h (workspaceRoot p) "package.json")) = ReadReturns wp ->
  name pkg = Some n ->
  NoDup (map fst (getWorkspaces h (workspaceRoot p))) ->
  In (n, w) (getWorkspaces h (workspaceRoot p)) ->
  exists p2,
    setActiveFile h filename (snd (getChildren h element p)) = (Return tt, p2) /\
    activePackage p2 = Some (nodeOf h (workspaceRoot p) (n, w)) /\
    fired p2 = fired p.
Proof.
  intros Hroot Hpkg Hwp Hname Hnd Hin.
  destruct (getChildren_frame h element p) as (Hr & _ & _ & _ & Hfired & _).
  pose proof (getChildren_reloads h element p) as Hitems.
  set (p1 := snd (getChildren h element p)) in *.
  rewrite (setActiveFile_run h filename p1 (workspaceRoot p) pkg wp Hroot Hpkg Hwp).
  eexists. split; [reflexivity|].
  unfold afterActiveFile. rewrite Hr, String.eqb_refl.
  cbn [activePackage fired set_activePackage set_workspacePkgJson set_workspaceRoot].
  rewrite Hname, Hitems, (materialize_entries _ _ Hnd).
  split; [|exact Hfired].
  apply (JsMapMore.get_of_entries (nodeOf h (workspaceRoot p)) _ (n, w) Hnd Hin).
Qed.

Lemma active_package_is_the_loaded_node_witness :
  exists p2,
    setActiveFile Scenario.plainHost "/repo/packages/lib-a/index.ts"
      (snd (getChildren Scenario.plainHost None Scenario.repoProvider)) = (Return tt, p2) /\
    activePackage p2 = Some Scenario.nodeLibA /\
    fired p2 = 0.
Proof.
  apply (active_package_is_the_loaded_node Scenario.plainHost None
           "/repo/packages/lib-a/index.ts" Scenario.repoProvider
           (Scenario.pkg "lib-a" "/repo/packages/lib-a")
           (Some (Scenario.pkg "repo" "/repo"))
           "lib-a" (Scenario.pkg "lib-a" "/repo/packages/lib-a")); try reflexivity.
  - repeat constructor; simpl; intuition discriminate.
  - right. left. reflexivity.
Defined.

(** X15: the active node is looked up in the index as it stands before any
    reload: with nothing loaded yet, or after [clearGraph], the active node
    is absent whatever the file. *)
Theorem active_package_absent_before_load (h : Host) (filename : string) (p : Provider)
  (r : string) (pkg : PackageInfo) (wp : option PackageInfo) :
  getWorkspaceRoot h (dirname h filename) = Some r ->
  readJson h (pkgUp h (dirname h filename)) = ReadReturns (Some pkg) ->
  readJson h (Some (join h r "package.json")) = ReadReturns wp ->
  items p = [] ->
  exists p',
    setActiveFile h filename p = (Return tt, p') /\
    activePackage p' = None /\
    items p' = [].
Proof.
  intros Hroot Hpkg Hwp Hempty.
  rewrite (setActiveFile_run h filename p r pkg wp Hroot Hpkg Hwp).
  eexists. split; [reflexivity|]. rewrite afterActiveFile_items.
  split; [|exact Hempty].
  unfold afterActiveFile. rewrite Hempty.
  destruct (r =? workspaceRoot p); cbn; destruct (name pkg); reflexivity.
Qed.

Lemma active_package_absent_before_load_witness :
  exists p',
    setActiveFile Scenario.plainHost "/repo/packages/app/src/index.ts" Scenario.repoProvider
      = (Return tt, p') /\
    activePackage p' = None /\
    items p' = [].
Proof.
  apply (active_package_absent_before_load Scenario.plainHost
           "/repo/packages/app/src/index.ts" Scenario.repoProvider "/repo"
           (Scenario.pkg "app" "/repo/packages/app") (Some (Scenario.pkg "repo" "/repo")));
    reflexivity.
Defined.

(** X16: after a change of the active file to another root, the status
    text names the new workspace at once but still counts the packages of
    the index loaded before; the count is that of the new root after the
    next query. *)
Theorem status_counts_old_index_until_query (h : Host) (filename : string) (p : Provider)
  (r : string) (pkg j : PackageInfo) :
  getWorkspaceRoot h (dirname h filename) = Some r ->
  readJson h (pkgUp h (dirname h filename)) = ReadReturns (Some pkg) ->
  readJson h (Some (join h r "package.json")) = ReadReturns (Some j) ->
  exists p',
    setActiveFile h filename p = (Return tt, p') /\
    statusText p'
    = "Workspace: " ++ template (name j) ++ ", "
        ++ templateNat (JsMap.size (items p)) ++ " packages" /\
    forall h' element,
      statusText (snd (getChildren h' element p'))
      = "Workspace: " ++ template (name j) ++ ", "
          ++ templateNat (JsMap.size (materialize h' r)) ++ " packages".
Proof.
  intros Hroot Hpkg Hwp.
  rewrite (setActiveFile_run h filename p r pkg (Some j) Hroot Hpkg Hwp).
  eexists. split; [reflexivity|].
  assert (Hj : workspacePkgJson (afterActiveFile r (Some j) pkg p) = Some j).
  { unfold afterActiveFile. destruct (r =? workspaceRoot p); reflexivity. }
  split.
  - unfold statusText. rewrite Hj, afterActiveFile_items. reflexivity.
  - intros h' element. unfold statusText.
    destruct (getChildren_frame h' element (afterActiveFile r (Some j) pkg p))
      as (_ & Hjson & _).
    rewrite Hjson, Hj, getChildren_reloads, afterActiveFile_root. reflexivity.
Qed.

Lemma status_counts_old_index_until_query_witness :
  exists p',
    setActiveFile Scenario.plainHost "/cycle/A/index.ts"
      (snd (getChildren Scenario.plainHost None Scenario.repoProvider)) = (Return tt, p') /\
    statusText p' = "Workspace: cycle, 3 packages" /\
    statusText (snd (getChildren Scenario.plainHost None p')) = "Workspace: cycle, 2 packages".
Proof.
  destruct (status_counts_old_index_until_query Scenario.plainHost "/cycle/A/index.ts"
              (snd (getChildren Scenario.plainHost None Scenario.repoProvider))
              "/cycle" (Scenario.pkg "A" "/cycle/A") (Scenario.pkg "cycle" "/cycle"))
    as (p' & Hrun & Hold & Hnew); try reflexivity.
  exists p'. split; [exact Hrun|]. split.
  - rewrite Hold. reflexivity.
  - rewrite Hnew. reflexivity.
Defined.
